(** * ONE-PIECE-WAS: the authenticated chat backend of [index.js]

    A shallow embedding of the Express application in [src/index.js]:
    the registration and login routes, the JWT middleware
    [authenticateToken], the user listing route and the chat route
    together with [getChatGPTResponse].

    The handlers are [async] functions that thread two MongoDB
    collections and one outbound HTTP client through a [try]/[catch].
    They are embedded as computations in a small state-and-exception
    monad over a [world] that holds the two collections and the log of
    the side effects performed so far.  Writes performed before an
    exception is thrown are kept, as in the source, where nothing is
    rolled back.

    A request body is what [express.json()] parsed: its properties are
    JSON values of any kind.  The libraries enter by what they do with
    those values: [bcrypt] rejects data that is not a string, and
    [mongoose] casts what it stores and what it queries. *)

From Stdlib Require Import String Ascii List Bool Arith ZArith DecimalString Lia.
Import ListNotations.
Open Scope string_scope.
Open Scope list_scope.
Open Scope nat_scope.

Set Implicit Arguments.
Set Warnings "-register-all".

(** ** JavaScript values seen by the handlers *)

Module JS.

(** A field of a JSON body, or a header: [None] is [undefined]. *)
Definition field := option string.

(** Truthiness of a string: only the empty string is falsy. *)
Definition truthy_string (s : string) : bool :=
  match s with
  | EmptyString => false
  | String _ _ => true
  end.

(** Truthiness of a possibly [undefined] string. *)
Definition truthy (f : field) : bool :=
  match f with
  | None => false
  | Some s => truthy_string s
  end.

(** [a || b] on strings, with [a] possibly [undefined]. *)
Definition or_else (f : field) (d : string) : string :=
  match f with
  | Some s => if truthy_string s then s else d
  | None => d
  end.

(** Drop the first [n] characters. *)
Fixpoint drop (n : nat) (s : string) : string :=
  match n, s with
  | O, _ => s
  | S _, EmptyString => EmptyString
  | S n', String _ s' => drop n' s'
  end.

(** [s.replace(pat, rep)] with a string pattern: the first occurrence
    of [pat], wherever it is, is replaced; a string without an
    occurrence is returned as it is. *)
Fixpoint replace (pat rep s : string) : string :=
  if String.prefix pat s then (rep ++ drop (String.length pat) s)%string
  else match s with
       | EmptyString => EmptyString
       | String c s' => String c (replace pat rep s')
       end.

(** [pat] occurs in [s] at some position. *)
Fixpoint occurs (pat s : string) : bool :=
  String.prefix pat s ||
  match s with
  | EmptyString => false
  | String _ s' => occurs pat s'
  end.

(** A JSON value as [express.json()] parses it.  [Number] stands for a
    double with an integer: the server reads of a number only whether
    it is zero. *)
Inductive json :=
| Null
| Bool (b : bool)
| Number (n : Z)
| Str (s : string)
| Array (items : list json)
| Object (members : list (string * json)).

(** Truthiness of a JSON value: [null], [false], [0] and the empty
    string are falsy. *)
Definition truthy_json (v : json) : bool :=
  match v with
  | Null => false
  | Bool b => b
  | Number n => negb (Z.eqb n 0)
  | Str s => truthy_string s
  | Array _ => true
  | Object _ => true
  end.

(** A property of a request body: [None] is [undefined], the property
    the body does not have. *)
Definition value := option json.

Definition truthy_value (v : value) : bool :=
  match v with
  | None => false
  | Some j => truthy_json j
  end.

(** The character [c] occurs in [s]. *)
Fixpoint has_char (c : ascii) (s : string) : bool :=
  match s with
  | EmptyString => false
  | String d s' => Ascii.eqb c d || has_char c s'
  end.

End JS.

(** ** Data model

    [models/User] and the [Conversation] model are not part of
    [index.js]; their documents are given here with the fields that
    [index.js] reads and writes. *)

(** Modelled from the spec: the [User] schema of [models/User], which
    [index.js] requires but which is not among the sources ("User: id,
    name, email (unique), password (hashed), systemRole (optional
    string)").  [_id] stands for the ObjectId, [None] in [systemRole]
    for a field that was never set. *)
Record User := mkUser {
  _id : nat;
  name : string;
  email : string;
  password : string;
  systemRole : JS.field
}.

(** Modelled from the spec: a document of the conversation collection
    ("Conversation turn: userId, role, content").  [index.js] names a
    model [Conversation] for it without declaring or requiring one, so
    the server itself never reads or writes the collection. *)
Record Conversation := mkConversation {
  userId : nat;
  role : string;
  content : string
}.

(** One entry of the [messages] array sent to the completion API. *)
Record Message := mkMessage {
  msg_role : string;
  msg_content : JS.value
}.

(** The argument of [openai.chat.completions.create]. *)
Record CompletionRequest := mkCompletionRequest {
  model : string;
  messages : list Message;
  temperature : nat;
  max_tokens : nat
}.

(** The payload that [jwt.verify] returns: the signed [id] with the
    issue and expiry times the library adds, in seconds. *)
Record Payload := mkPayload {
  id : nat;
  iat : nat;
  exp : nat
}.

(** A user as [User.find({}, { password: 0 })] projects it. *)
Record PublicUser := mkPublicUser {
  pub_id : nat;
  pub_name : string;
  pub_email : string;
  pub_systemRole : JS.field
}.

(** The JSON bodies the routes answer with. *)
Inductive Json :=
| JMessage (message : string)
| JToken (token message : string)
| JUsers (users : list PublicUser)
| JResponse (response : string).

Record Response := mkResponse {
  status : nat;
  json : Json
}.

(** Side effects that leave the process, in the order they happen: the
    writes to the user collection and the calls of
    [openai.chat.completions.create], each call with its reply ([None]
    when the call failed). *)
Inductive Effect :=
| UserSaved (u : User)
| CompletionCalled (r : CompletionRequest) (reply : option string).

(** The calls of the completion API among the effects. *)
Fixpoint completion_calls (es : list Effect) : list CompletionRequest :=
  match es with
  | [] => []
  | CompletionCalled r _ :: es' => r :: completion_calls es'
  | _ :: es' => completion_calls es'
  end.

(** The state the handlers run against: the two collections, each in
    insertion order, and the log of effects. *)
Record world := mkWorld {
  users : list User;
  conversations : list Conversation;
  effects : list Effect
}.

(** What a handler can throw inside its [try] block. *)
Inductive exn :=
| TypeError
| ReferenceError (name : string)
| Error (message : string).

(** ** The monad of handler bodies *)

Inductive outcome (A : Type) :=
| Returned (a : A)
| Thrown (e : exn).
Arguments Thrown {A} e.

Definition M (A : Type) : Type := world -> outcome A * world.

Definition ret {A} (a : A) : M A := fun w => (Returned a, w).

Definition throw {A} (e : exn) : M A := fun w => (Thrown e, w).

Definition bind {A B} (m : M A) (k : A -> M B) : M B :=
  fun w => match m w with
           | (Returned a, w') => k a w'
           | (Thrown e, w') => (Thrown e, w')
           end.

Declare Scope js_scope.
Delimit Scope js_scope with js.
Notation "x <- m ;; k" := (bind m (fun x => k))
  (at level 61, m at next level, right associativity) : js_scope.
Notation "m ;;; k" := (bind m (fun _ => k))
  (at level 61, right associativity) : js_scope.
Open Scope js_scope.

(** A route answers every request: its handler body is wrapped in a
    [try] whose [catch] logs the error and answers [fallback]. *)
Definition Route : Type := world -> Response * world.

Definition catch_all (body : M Response) (fallback : Response) : Route :=
  fun w => match body w with
           | (Returned r, w') => (r, w')
           | (Thrown _, w') => (fallback, w')
           end.

(** Reading a property of a value that may be [null]. *)
Definition deref {A} (o : option A) : M A :=
  match o with
  | Some a => ret a
  | None => throw TypeError
  end.

(** The names that [index.js] binds in its module scope: the [const]
    declarations of lines 1-9, 20, 32, 39, 43, 46, 54, 75 and 100 and
    the function of line 80. *)
Definition declared : list string :=
  ["express"; "mongoose"; "User"; "jwt"; "bcrypt"; "cors"; "dotenv";
   "OpenAI"; "promClient"; "port"; "db"; "collectDefaultMetrics";
   "register"; "httpRequestDurationMicroseconds"; "app"; "openai";
   "getChatGPTResponse"; "authenticateToken"].

(** Evaluating an identifier that the module does not declare and that
    is no global of the runtime: a ReferenceError, before anything is
    done with the value. *)
Definition unbound {A} (name : string)
           (_ : existsb (String.eqb name) declared = false) : M A :=
  throw (ReferenceError name).

(** ** The libraries the server calls *)

(** [jsonwebtoken].  [jwt_sign i k d t] is
    [jwt.sign({ id: i }, k, { expiresIn: d })] evaluated when the clock
    shows [t] seconds; [jwt_verify tok k now] is [jwt.verify(tok, k)]
    at clock [now], with [None] for a thrown error. *)
Class Jwt := {
  jwt_sign : nat -> string -> nat -> nat -> string;
  jwt_verify : string -> string -> nat -> option Payload
}.

(** The contract of the library: a token verifies under the key that
    signed it until its expiry, and is a non-empty string of base64url
    characters and dots, so without a space. *)
Class JwtLaws (jwt : Jwt) : Prop := {
  jwt_verify_sign : forall i k d t now,
    jwt_verify (jwt_sign i k d t) k now =
    if now <? t + d then Some (mkPayload i t (t + d)) else None;
  jwt_sign_truthy : forall i k d t,
    JS.truthy_string (jwt_sign i k d t) = true;
  jwt_sign_no_space : forall i k d t,
    JS.has_char " " (jwt_sign i k d t) = false
}.

(** [mongoose], on the JSON values that are not strings.
    [castString v] is what the String cast of a document path makes of
    [v], with [None] for a CastError, on which [save()] rejects.
    [castFilter v] is the set of users that the filter [{ email: v }]
    selects, with [None] for a query that rejects.  Nothing is assumed
    of either. *)
Class Mongoose := {
  castString : JS.json -> option string;
  castFilter : JS.json -> option (User -> bool)
}.

(** ** The user collection

    The Mongoose calls of [index.js] on the [User] model, as operations
    on the world.  The collection is the list of its documents in
    insertion order. *)

Module Db.

(** An ObjectId that no stored user has. *)
Definition fresh_id (us : list User) : nat :=
  S (fold_right Nat.max 0 (map _id us)).

(** A value as a String path stores it: a string as it is. *)
Definition cast {mongoose : Mongoose} (v : JS.json) : option string :=
  match v with
  | JS.Str s => Some s
  | _ => castString v
  end.

(** [User.findOne({ email })]: the first user with that email when
    [email] is a string, and what the filter selects otherwise. *)
Definition findOne {mongoose : Mongoose} (e : JS.json) : M (option User) :=
  match e with
  | JS.Str s =>
      fun w => (Returned (find (fun u => String.eqb (email u) s) (users w)), w)
  | _ =>
      match castFilter e with
      | Some selects => fun w => (Returned (find selects (users w)), w)
      | None => throw (Error "CastError")
      end
  end.

(** The user [u] is one that the filter [{ email: e }] selects. *)
Definition selects {mongoose : Mongoose} (e : JS.json) (u : User) : Prop :=
  match e with
  | JS.Str s => email u = s
  | _ => exists f, castFilter e = Some f /\ f u = true
  end.

(** [User.findById(userId)] *)
Definition findById (i : nat) : M (option User) :=
  fun w => (Returned (find (fun u => Nat.eqb (_id u) i) (users w)), w).

(** [User.find({}, { password: 0 })] *)
Definition find_public : M (list PublicUser) :=
  fun w => (Returned
              (map (fun u => mkPublicUser (_id u) (name u) (email u) (systemRole u))
                   (users w)), w).

(** Inserting a new document: it gets its [_id] and is appended. *)
Definition insert_user (n e p : string) : M User :=
  fun w =>
    let u := mkUser (fresh_id (users w)) n e p None in
    (Returned u,
     mkWorld (users w ++ [u]) (conversations w) (effects w ++ [UserSaved u])).

(** [new User({ name, email, password })] followed by [save()]: the
    document is validated, which fails when [name] or [email] does not
    cast to a string, and then inserted. *)
Definition create {mongoose : Mongoose} (n e : JS.json) (p : string) : M User :=
  match cast n, cast e with
  | Some n', Some e' => insert_user n' e' p
  | _, _ => throw (Error "ValidationError")
  end.

(** [user.save()] on a document that was loaded: the stored document
    with the same [_id] is replaced. *)
Definition save_user (u : User) : M unit :=
  fun w =>
    (Returned tt,
     mkWorld (map (fun v => if Nat.eqb (_id v) (_id u) then u else v) (users w))
             (conversations w)
             (effects w ++ [UserSaved u])).

(** [user.systemRole = systemRole] followed by [user.save()]: the
    document with the cast value is validated and stored. *)
Definition save_systemRole {mongoose : Mongoose} (u : User) (r : JS.json)
  : M User :=
  match cast r with
  | Some s =>
      let u' := mkUser (_id u) (name u) (email u) (password u) (Some s) in
      save_user u' ;;; ret u'
  | None => throw (Error "ValidationError")
  end.

End Db.

(** The bodies of the three POST routes, as [express.json()] hands
    them over: every property is a JSON value of any kind, or
    absent. *)
Record RegisterBody := mkRegisterBody {
  reg_name : JS.value;
  reg_email : JS.value;
  reg_password : JS.value
}.

Record LoginBody := mkLoginBody {
  login_email : JS.value;
  login_password : JS.value
}.

Record ChatBody := mkChatBody {
  chat_message : JS.value;
  chat_systemRole : JS.value
}.

(** ['1h'] as [jsonwebtoken] reads it, in seconds. *)
Definition one_hour : nat := 60 * 60.

Definition default_system_role : string := "You are a helpful assistant.".

(** A request to one of the four routes, with what the handlers read
    of it. *)
Inductive Request :=
| PostRegister (body : RegisterBody)
| PostLogin (body : LoginBody)
| GetUsers (authorization : JS.field)
| PostChatbot (authorization : JS.field) (body : ChatBody).

(** ** The server *)

Section Server.

Context {jwt : Jwt} {mongoose : Mongoose}.

(** [process.env.JWT_SECRET] *)
Variable JWT_SECRET : string.

(** [bcrypt.hash] and [bcrypt.compare] on strings. *)
Variable bcrypt_hash : string -> nat -> string.
Variable bcrypt_compare : string -> string -> bool.

(** [openai.chat.completions.create(request)] followed by
    [.choices[0].message.content]: the reply, or [None] when the call
    or the access rejects.  The answer may depend on everything that
    left the process before. *)
Variable openai_create : list Effect -> CompletionRequest -> option string.

(** [await bcrypt.hash(data, rounds)]: the promise rejects when [data]
    is not a string. *)
Definition await_bcrypt_hash (data : JS.json) (rounds : nat) : M string :=
  match data with
  | JS.Str s => ret (bcrypt_hash s rounds)
  | _ => throw (Error "data must be a string or Buffer and salt must either be a salt string or a number of rounds")
  end.

(** [await bcrypt.compare(data, encrypted)]: the promise rejects when
    [data] is not a string. *)
Definition await_bcrypt_compare (data : JS.json) (encrypted : string) : M bool :=
  match data with
  | JS.Str s => ret (bcrypt_compare s encrypted)
  | _ => throw (Error "data and hash must be strings")
  end.

Definition getChatGPTResponse (msgs : list Message) (sysRole : JS.field)
  : M string :=
  fun w =>
    let request :=
      mkCompletionRequest "gpt-4"
        (mkMessage "system"
           (Some (JS.Str (JS.or_else sysRole default_system_role))) :: msgs)
        1 256 in
    let reply := openai_create (effects w) request in
    let w' := mkWorld (users w) (conversations w)
                      (effects w ++ [CompletionCalled request reply]) in
    match reply with
    | Some text => (Returned text, w')
    | None => (Thrown (Error "ChatGPT API 오류 발생"), w')
    end.

(** [req.header('Authorization')?.replace('Bearer ', '')] *)
Definition bearer_token (authorization : JS.field) : JS.field :=
  option_map (JS.replace "Bearer " "") authorization.

(** The middleware either answers itself or calls [next()] with the
    verified payload in [req.user]. *)
Definition authenticateToken (authorization : JS.field) (now : nat)
  : Response + Payload :=
  match bearer_token authorization with
  | Some token =>
      if JS.truthy_string token then
        match jwt_verify token JWT_SECRET now with
        | Some verified => inr verified
        | None => inl (mkResponse 403 (JMessage "유효하지 않은 토큰입니다."))
        end
      else inl (mkResponse 401 (JMessage "토큰이 없습니다."))
  | None => inl (mkResponse 401 (JMessage "토큰이 없습니다."))
  end.

(** [app.METHOD(path, authenticateToken, handler)] *)
Definition protected (handler : Payload -> Route)
           (authorization : JS.field) (now : nat) : Route :=
  fun w => match authenticateToken authorization now with
           | inl answer => (answer, w)
           | inr verified => handler verified w
           end.

(** [app.post('/api/register', ...)] *)
Definition post_api_register (body : RegisterBody) (now : nat) : Route :=
  match reg_name body, reg_email body, reg_password body with
  | Some n, Some e, Some p =>
      if JS.truthy_json n && JS.truthy_json e && JS.truthy_json p then
        catch_all
          (existingUser <- Db.findOne e ;;
           match existingUser with
           | Some _ => ret (mkResponse 400 (JMessage "이미 존재하는 사용자입니다."))
           | None =>
               hashedPassword <- await_bcrypt_hash p 10 ;;
               newUser <- Db.create n e hashedPassword ;;
               let token := jwt_sign (_id newUser) JWT_SECRET one_hour now in
               ret (mkResponse 201
                      (JToken token "사용자가 성공적으로 등록되었습니다."))
           end)
          (mkResponse 500 (JMessage "서버 오류 발생"))
      else fun w => (mkResponse 400 (JMessage "모든 필드를 입력해주세요."), w)
  | _, _, _ => fun w => (mkResponse 400 (JMessage "모든 필드를 입력해주세요."), w)
  end.

(** [app.post('/api/login', ...)] *)
Definition post_api_login (body : LoginBody) (now : nat) : Route :=
  match login_email body, login_password body with
  | Some e, Some p =>
      if JS.truthy_json e && JS.truthy_json p then
        catch_all
          (user <- Db.findOne e ;;
           match user with
           | None => ret (mkResponse 400 (JMessage "잘못된 이메일 또는 비밀번호입니다."))
           | Some u =>
               isMatch <- await_bcrypt_compare p (password u) ;;
               if isMatch then
                 let token := jwt_sign (_id u) JWT_SECRET one_hour now in
                 ret (mkResponse 200 (JToken token "로그인 성공!"))
               else
                 ret (mkResponse 400 (JMessage "잘못된 이메일 또는 비밀번호입니다."))
           end)
          (mkResponse 500 (JMessage "서버 오류 발생"))
      else fun w => (mkResponse 400 (JMessage "이메일과 비밀번호를 입력해주세요."), w)
  | _, _ => fun w => (mkResponse 400 (JMessage "이메일과 비밀번호를 입력해주세요."), w)
  end.

(** The handler of [app.get('/api/users', authenticateToken, ...)] *)
Definition users_handler (_ : Payload) : Route :=
  catch_all
    (us <- Db.find_public ;;
     ret (mkResponse 200 (JUsers us)))
    (mkResponse 500 (JMessage "사용자 조회 중 오류 발생")).

(** The handler of [app.post('/api/chatbot', authenticateToken, ...)].
    The name [Conversation] of lines 199, 205 and 206 is not declared:
    evaluating it at line 199 throws, so that the lines after it are
    never reached.  In them, [user.systemRole], the second argument of
    the call of [getChatGPTResponse], is read after the first argument
    has been built and before the call. *)
Definition chatbot_handler (body : ChatBody) (req_user : Payload) : Route :=
  catch_all
    (let userId := id req_user in
     user <- Db.findById userId ;;
     user <- (match chat_systemRole body with
              | Some systemRole =>
                  if JS.truthy_json systemRole then
                    u <- deref user ;;
                    u' <- Db.save_systemRole u systemRole ;;
                    ret (Some u')
                  else ret user
              | None => ret user
              end) ;;
     conversation <- unbound "Conversation" eq_refl ;;
     let msgs :=
       map (fun c => mkMessage (role c) (Some (JS.Str (content c)))) conversation
       ++ [mkMessage "user" (chat_message body)] in
     u <- deref user ;;
     botResponse <- getChatGPTResponse msgs (systemRole u) ;;
     unbound (A := unit) "Conversation" eq_refl ;;;
     unbound (A := unit) "Conversation" eq_refl ;;;
     ret (mkResponse 200 (JResponse botResponse)))
    (mkResponse 500 (JMessage "ChatGPT와의 상호작용 중 오류 발생")).

Definition get_api_users : JS.field -> nat -> Route :=
  protected users_handler.

Definition post_api_chatbot (body : ChatBody) : JS.field -> nat -> Route :=
  protected (chatbot_handler body).

(** The router: each request goes to its route.  [now] is the clock,
    in seconds, when the request is served. *)
Definition app (request : Request) (now : nat) : Route :=
  match request with
  | PostRegister body => post_api_register body now
  | PostLogin body => post_api_login body now
  | GetUsers authorization => get_api_users authorization now
  | PostChatbot authorization body => post_api_chatbot body authorization now
  end.

(** The world after a sequence of requests, served one after the
    other. *)
Fixpoint serve (requests : list (Request * nat)) (w : world) : world :=
  match requests with
  | [] => w
  | (request, now) :: rest => serve rest (snd (app request now w))
  end.

End Server.

Arguments bearer_token authorization : simpl never.

(** ** The vocabulary of the statements *)

(** The answers of the middleware and of the failing routes. *)
Definition no_token : Response := mkResponse 401 (JMessage "토큰이 없습니다.").
Definition invalid_token : Response :=
  mkResponse 403 (JMessage "유효하지 않은 토큰입니다.").

(** The filter of [User.findOne({ email })] for a string. *)
Definition by_email (e : string) (u : User) : bool := String.eqb (email u) e.

(** The answer to a login that fails. *)
Definition bad_credentials : Response :=
  mkResponse 400 (JMessage "잘못된 이메일 또는 비밀번호입니다.").

(** The answer of the [catch] of the registration and login routes. *)
Definition server_error : Response :=
  mkResponse 500 (JMessage "서버 오류 발생").

(** The filter of [User.findById(userId)]. *)
Definition by_id (i : nat) (u : User) : bool := Nat.eqb (_id u) i.

(** The stored turns of user [i], oldest first, as the API takes them. *)
Definition history (i : nat) (w : world) : list Message :=
  map (fun c => mkMessage (role c) (Some (JS.Str (content c))))
      (filter (fun c => Nat.eqb (userId c) i) (conversations w)).

(** The answer of the chat route when its handler throws. *)
Definition chat_failed : Response :=
  mkResponse 500 (JMessage "ChatGPT와의 상호작용 중 오류 발생").

(** [u] with its [systemRole] overwritten. *)
Definition with_role (u : User) (r : JS.field) : User :=
  mkUser (_id u) (name u) (email u) (password u) r.

(** The user collection after [u'] was saved. *)
Definition saved_users (u' : User) (us : list User) : list User :=
  map (fun v => if Nat.eqb (_id v) (_id u') then u' else v) us.

(** No stored [systemRole] is the empty string. *)
Definition roles_nonempty (w : world) : Prop :=
  forall u, In u (users w) -> systemRole u <> Some "".

(** No two stored users share an [_id], and no two an email. *)
Definition unique_users (w : world) : Prop :=
  NoDup (map _id (users w)) /\ NoDup (map email (users w)).

(** A property of a body that is a string, or absent, or falsy. *)
Definition string_or_falsy (v : JS.value) : Prop :=
  match v with
  | None => True
  | Some (JS.Str _) => True
  | Some j => JS.truthy_json j = false
  end.

(** A request whose registration email, respectively chat systemRole,
    is a string when it is truthy. *)
Definition plain_email (request : Request * nat) : Prop :=
  match fst request with
  | PostRegister body => string_or_falsy (reg_email body)
  | _ => True
  end.

Definition plain_role (request : Request * nat) : Prop :=
  match fst request with
  | PostChatbot _ body => string_or_falsy (chat_systemRole body)
  | _ => True
  end.

(** The user [u] is what a registration of [requests] asks for: its
    name and email are the casts of the name and email of the
    request, and its password is the hash, with cost 10, of the
    password of the request, a string that is not empty. *)
Definition created_by {mongoose : Mongoose} (hash : string -> nat -> string)
           (requests : list (Request * nat)) (u : User) : Prop :=
  exists body now n e p,
    In (PostRegister body, now) requests /\
    body = mkRegisterBody (Some n) (Some e) (Some (JS.Str p)) /\
    p <> "" /\
    Db.cast n = Some (name u) /\ Db.cast e = Some (email u) /\
    password u = hash p 10.

(** What one request can do to the world: nothing, insert a user under
    a new [_id], or save a stored user with another systemRole. *)
Inductive step (w : world) : world -> Prop :=
| step_idle : step w w
| step_insert u :
    _id u = Db.fresh_id (users w) ->
    step w (mkWorld (users w ++ [u]) (conversations w)
                    (effects w ++ [UserSaved u]))
| step_role i u r :
    find (by_id i) (users w) = Some u ->
    step w (mkWorld (saved_users (with_role u r) (users w)) (conversations w)
                    (effects w ++ [UserSaved (with_role u r)])).

(** ** Small instances of the libraries

    A token format, a password hash, a String cast and two completion
    services that are simple enough to run the server on concrete
    requests. *)

Module Toy.

(** [n] in unary. *)
Fixpoint unary (n : nat) : string :=
  match n with
  | O => EmptyString
  | S n' => String "1" (unary n')
  end.

(** The number of leading ["1"] and what follows them. *)
Fixpoint read_unary (s : string) : nat * string :=
  match s with
  | String "1" s' => let (n, rest) := read_unary s' in (S n, rest)
  | _ => (0, s)
  end.

(** A token is [id.iat.exp.sig] in unary, the signature being the
    length of the key. *)
Definition sign (i : nat) (k : string) (d t : nat) : string :=
  (unary i ++ "." ++ unary t ++ "." ++ unary (t + d) ++ "."
   ++ unary (String.length k))%string.

Definition verify (tok k : string) (now : nat) : option Payload :=
  match read_unary tok with
  | (i, String "." r1) =>
      match read_unary r1 with
      | (t, String "." r2) =>
          match read_unary r2 with
          | (e, String "." r3) =>
              match read_unary r3 with
              | (sig, EmptyString) =>
                  if Nat.eqb sig (String.length k) && (now <? e)
                  then Some (mkPayload i t e) else None
              | _ => None
              end
          | _ => None
          end
      | _ => None
      end
  | _ => None
  end.

(** A hash that marks the password, and the comparison with it. *)
Definition hash (p : string) (rounds : nat) : string :=
  ("$2b$" ++ unary rounds ++ "$" ++ p)%string.
Definition compare (p h : string) : bool := String.eqb (hash p 10) h.

(** A String cast that prints booleans and numbers and rejects the
    rest, and the filters that go with it: a boolean or a number
    selects by its printed form, [null] selects nothing, an object
    selects every user, an array is rejected. *)
Definition print (v : JS.json) : option string :=
  match v with
  | JS.Bool true => Some "true"
  | JS.Bool false => Some "false"
  | JS.Number n => Some (NilZero.string_of_int (Z.to_int n))
  | _ => None
  end.

Definition filter_of (v : JS.json) : option (User -> bool) :=
  match v with
  | JS.Null => Some (fun _ => false)
  | JS.Array _ => None
  | JS.Object _ => Some (fun _ => true)
  | _ => option_map (fun s u => String.eqb (email u) s) (print v)
  end.

(** A completion service that echoes the system message, and one that
    is down. *)
Definition echo (_ : list Effect) (r : CompletionRequest) : option string :=
  match messages r with
  | mkMessage _ (Some (JS.Str s)) :: _ => Some s
  | _ => Some ""
  end.


Definition secret : string := "s3cret".

(** A string as a property of a body. *)
Definition str (s : string) : JS.value := Some (JS.Str s).

(** Two users, three stored turns, nothing logged yet. *)
Definition luffy : User :=
  mkUser 1 "Luffy" "luffy@grandline.sea" (hash "meat" 10)
         (Some "You are a pirate captain.").

Definition nami : User :=
  mkUser 2 "Nami" "nami@grandline.sea" (hash "berries" 10) None.

Definition crew : world :=
  mkWorld [luffy; nami]
          [mkConversation 1 "user" "Where is the treasure?";
           mkConversation 2 "user" "What does the map cost?";
           mkConversation 1 "assistant" "On Laugh Tale."]
          [].

Definition empty : world := mkWorld [] [] [].

(** The payload of a token of user [i]. *)
Definition token_of (i : nat) : Payload := mkPayload i 0 one_hour.

(** Chat bodies: without a systemRole, with one, with an empty one. *)
Definition set_sail : ChatBody := mkChatBody (str "Set sail") None.
Definition drop_anchor : ChatBody := mkChatBody (str "Drop anchor") None.
Definition as_navigator : ChatBody :=
  mkChatBody (str "Set sail") (str "You are a navigator.").

(** A registration. *)
Definition zoro : RegisterBody :=
  mkRegisterBody (str "Zoro") (str "zoro@grandline.sea") (str "swords").

(** A header with a token of user 1 that expires at clock 11. *)
Definition bearer_1 : JS.field := Some "Bearer 1..11111111111.111111".

(** A registration, two chats of user 1, a login and a listing. *)
Definition session : list (Request * nat) :=
  [(PostRegister zoro, 0);
   (PostChatbot bearer_1 set_sail, 10);
   (PostLogin (mkLoginBody (str "zoro@grandline.sea") (str "swords")), 10);
   (PostChatbot bearer_1 as_navigator, 10);
   (GetUsers None, 10)].

(** A signed token of user 1 with ["Bearer "] put after its first
    character. *)
Definition spliced : string :=
  String "1" ("Bearer " ++ JS.drop 1 (sign 1 secret one_hour 0)).

End Toy.

#[export] Instance toy_jwt : Jwt := {|
  jwt_sign := Toy.sign;
  jwt_verify := Toy.verify
|}.

#[export] Instance toy_mongoose : Mongoose := {|
  castString := Toy.print;
  castFilter := Toy.filter_of
|}.

(** ** Strings *)

Example replace_prefix : JS.replace "Bearer " "" "Bearer abc.def" = "abc.def".
Proof. reflexivity. Qed.

Example replace_inner : JS.replace "Bearer " "" "JWT Bearer abc" = "JWT abc".
Proof. reflexivity. Qed.

Example replace_absent : JS.replace "Bearer " "" "abc.def" = "abc.def".
Proof. reflexivity. Qed.

Lemma has_char_app (c : ascii) (a b : string) :
  JS.has_char c (a ++ b) = JS.has_char c a || JS.has_char c b.
Proof.
  induction a as [|d a IH]; simpl.
  - reflexivity.
  - rewrite IH. apply orb_assoc.
Qed.

(** A string that starts with ["Bearer "] holds a space. *)
Lemma prefix_Bearer_has_space (s : string) :
  String.prefix "Bearer " s = true -> JS.has_char " " s = true.
Proof.
  intro P.
  do 7 (destruct s as [|? s]; simpl in P; [discriminate P|];
        match type of P with
        | (if ?d then _ else _) = true => destruct d; [subst|discriminate P]
        end).
  reflexivity.
Qed.

Lemma no_space_no_Bearer (s : string) :
  JS.has_char " " s = false -> JS.occurs "Bearer " s = false.
Proof.
  induction s as [|c s IH]; intro H.
  - reflexivity.
  - cbn [JS.occurs].
    destruct (String.prefix "Bearer " (String c s)) eqn:P.
    + apply prefix_Bearer_has_space in P. congruence.
    + simpl in H. apply orb_false_elim in H. now apply IH.
Qed.

(** [replace] leaves a string without an occurrence as it is. *)
Lemma replace_no_occurrence (pat rep s : string) :
  JS.occurs pat s = false -> JS.replace pat rep s = s.
Proof.
  induction s as [|c s IH]; intro H.
  - simpl in *. apply orb_false_elim in H. destruct H as [H _].
    now rewrite H.
  - cbn [JS.occurs] in H. apply orb_false_elim in H. destruct H as [P O].
    cbn [JS.replace]. rewrite P. f_equal. now apply IH.
Qed.

(** [replace] strips the prefix ["Bearer "]. *)
Lemma replace_Bearer_prefix (t : string) :
  JS.replace "Bearer " "" ("Bearer " ++ t) = t.
Proof. destruct t; reflexivity. Qed.

(** ** The small token format obeys the contract of the library *)

Lemma read_unary_dot (n : nat) (s : string) :
  Toy.read_unary (Toy.unary n ++ String "." s) = (n, String "." s).
Proof.
  induction n as [|n IH]; simpl.
  - reflexivity.
  - now rewrite IH.
Qed.

Lemma read_unary_end (n : nat) :
  Toy.read_unary (Toy.unary n) = (n, "").
Proof.
  induction n as [|n IH]; simpl.
  - reflexivity.
  - now rewrite IH.
Qed.

Lemma unary_no_space (n : nat) : JS.has_char " " (Toy.unary n) = false.
Proof. induction n; simpl; auto. Qed.

Lemma toy_verify_sign (i : nat) (k : string) (d t now : nat) :
  Toy.verify (Toy.sign i k d t) k now =
  if now <? t + d then Some (mkPayload i t (t + d)) else None.
Proof.
  unfold Toy.verify, Toy.sign.
  cbn [append]. rewrite !read_unary_dot, read_unary_end.
  now rewrite Nat.eqb_refl.
Qed.

Lemma toy_sign_truthy (i : nat) (k : string) (d t : nat) :
  JS.truthy_string (Toy.sign i k d t) = true.
Proof. unfold Toy.sign. destruct i; reflexivity. Qed.

Lemma toy_sign_no_space (i : nat) (k : string) (d t : nat) :
  JS.has_char " " (Toy.sign i k d t) = false.
Proof.
  unfold Toy.sign.
  repeat (rewrite has_char_app; cbn [JS.has_char Ascii.eqb Bool.eqb orb]).
  now rewrite !unary_no_space.
Qed.

#[export] Instance toy_jwt_laws : JwtLaws toy_jwt.
Proof.
  split.
  - exact toy_verify_sign.
  - exact toy_sign_truthy.
  - exact toy_sign_no_space.
Qed.

(** ** The authentication middleware *)

Section Authentication.

Context {jwt : Jwt} {laws : JwtLaws jwt} {mongoose : Mongoose}.
Variable JWT_SECRET : string.
Variable bcrypt_hash : string -> nat -> string.
Variable bcrypt_compare : string -> string -> bool.
Variable openai_create : list Effect -> CompletionRequest -> option string.

Lemma authenticateToken_absent (authorization : JS.field) (now : nat) :
  JS.truthy (bearer_token authorization) = false ->
  authenticateToken JWT_SECRET authorization now = inl no_token.
Proof.
  unfold authenticateToken. intro F.
  destruct (bearer_token authorization) as [token|]; [|reflexivity].
  simpl in F. now rewrite F.
Qed.

Lemma authenticateToken_invalid (authorization : JS.field) (now : nat) (token : string) :
  bearer_token authorization = Some token ->
  JS.truthy_string token = true ->
  jwt_verify token JWT_SECRET now = None ->
  authenticateToken JWT_SECRET authorization now = inl invalid_token.
Proof.
  unfold authenticateToken. intros -> -> ->. reflexivity.
Qed.

Lemma authenticateToken_verified (authorization : JS.field) (now : nat)
      (token : string) (verified : Payload) :
  bearer_token authorization = Some token ->
  JS.truthy_string token = true ->
  jwt_verify token JWT_SECRET now = Some verified ->
  authenticateToken JWT_SECRET authorization now = inr verified.
Proof.
  unfold authenticateToken. intros -> -> ->. reflexivity.
Qed.

(** A protected route whose middleware answers leaves the handler
    untouched, whatever the handler is. *)
Lemma protected_answered (handler : Payload -> Route) (authorization : JS.field)
      (now : nat) (answer : Response) (w : world) :
  authenticateToken JWT_SECRET authorization now = inl answer ->
  protected JWT_SECRET handler authorization now w = (answer, w).
Proof. unfold protected. now intros ->. Qed.

Lemma protected_next (handler : Payload -> Route) (authorization : JS.field)
      (now : nat) (verified : Payload) (w : world) :
  authenticateToken JWT_SECRET authorization now = inr verified ->
  protected JWT_SECRET handler authorization now w = handler verified w.
Proof. unfold protected. now intros ->. Qed.

(** C5: on GET /api/users and POST /api/chatbot, a request without a
    token is answered 401 and one whose token fails verification is
    answered 403, in both cases with the world as it was, so without
    any step of the handler; otherwise the verified payload becomes
    [req.user] and the route is its handler run on that payload. *)
Theorem C5_protected_routes (body : ChatBody) (authorization : JS.field)
        (now : nat) (w : world) :
  (JS.truthy (bearer_token authorization) = false ->
   get_api_users JWT_SECRET authorization now w = (no_token, w) /\
   post_api_chatbot JWT_SECRET openai_create body authorization now w = (no_token, w))
  /\
  (forall token,
     bearer_token authorization = Some token ->
     JS.truthy_string token = true ->
     jwt_verify token JWT_SECRET now = None ->
     get_api_users JWT_SECRET authorization now w = (invalid_token, w) /\
     post_api_chatbot JWT_SECRET openai_create body authorization now w
     = (invalid_token, w))
  /\
  (forall token verified,
     bearer_token authorization = Some token ->
     JS.truthy_string token = true ->
     jwt_verify token JWT_SECRET now = Some verified ->
     authenticateToken JWT_SECRET authorization now = inr verified /\
     get_api_users JWT_SECRET authorization now w = users_handler verified w /\
     post_api_chatbot JWT_SECRET openai_create body authorization now w
     = chatbot_handler openai_create body verified w).
Proof.
  unfold get_api_users, post_api_chatbot. repeat split.
  - now apply protected_answered, authenticateToken_absent.
  - now apply protected_answered, authenticateToken_absent.
  - eapply protected_answered, authenticateToken_invalid; eassumption.
  - eapply protected_answered, authenticateToken_invalid; eassumption.
  - eapply authenticateToken_verified; eassumption.
  - eapply protected_next, authenticateToken_verified; eassumption.
  - eapply protected_next, authenticateToken_verified; eassumption.
Qed.

(** A signed token holds no occurrence of ["Bearer "]. *)
Lemma jwt_sign_no_Bearer (i : nat) (k : string) (d t : nat) :
  JS.occurs "Bearer " (jwt_sign i k d t) = false.
Proof. apply no_space_no_Bearer, jwt_sign_no_space. Qed.

Lemma bearer_token_prefixed (token : string) :
  bearer_token (Some ("Bearer " ++ token)%string) = Some token.
Proof. unfold bearer_token, option_map. f_equal. apply replace_Bearer_prefix. Qed.

Lemma bearer_token_bare (header : string) :
  JS.occurs "Bearer " header = false ->
  bearer_token (Some header) = Some header.
Proof.
  intro O. unfold bearer_token, option_map. f_equal.
  now apply replace_no_occurrence.
Qed.

(** What the middleware does with a token it extracted depends on the
    token alone. *)
Lemma authenticateToken_same_token (a b : JS.field) (now : nat) :
  bearer_token a = bearer_token b ->
  authenticateToken JWT_SECRET a now = authenticateToken JWT_SECRET b now.
Proof. unfold authenticateToken. now intros ->. Qed.

(** A token signed with the server's key is accepted with its payload
    before its expiry and answered 403 from its expiry on. *)
Lemma signed_token_lifetime (i d t later : nat) :
  authenticateToken JWT_SECRET
    (Some ("Bearer " ++ jwt_sign i JWT_SECRET d t)%string) later
  = if later <? t + d then inr (mkPayload i t (t + d)) else inl invalid_token.
Proof.
  unfold authenticateToken.
  rewrite bearer_token_prefixed, jwt_sign_truthy, jwt_verify_sign.
  now destruct (later <? t + d).
Qed.

(** C10, as amended: a header value in which ["Bearer "] does not
    occur anywhere is taken whole as the token, and the middleware
    then does what it does when the same value follows the prefix; a
    token signed by the library is such a value, so it is treated
    alike with and without the prefix. *)
Theorem C10_bare_header :
  (forall header now,
     JS.occurs "Bearer " header = false ->
     bearer_token (Some header) = Some header /\
     authenticateToken JWT_SECRET (Some header) now
     = authenticateToken JWT_SECRET (Some ("Bearer " ++ header)%string) now)
  /\
  (forall i k d t now,
     bearer_token (Some (jwt_sign i k d t)) = Some (jwt_sign i k d t) /\
     authenticateToken JWT_SECRET (Some (jwt_sign i k d t)) now
     = authenticateToken JWT_SECRET
         (Some ("Bearer " ++ jwt_sign i k d t)%string) now).
Proof.
  assert (G : forall header now,
             JS.occurs "Bearer " header = false ->
             bearer_token (Some header) = Some header /\
             authenticateToken JWT_SECRET (Some header) now
             = authenticateToken JWT_SECRET
                 (Some ("Bearer " ++ header)%string) now).
  { intros header now O. split.
    - now apply bearer_token_bare.
    - apply authenticateToken_same_token.
      now rewrite bearer_token_bare, bearer_token_prefixed. }
  split.
  - exact G.
  - intros i k d t now. apply G, jwt_sign_no_Bearer.
Qed.

End Authentication.

(** ** Registration and login *)

Section Accounts.

Context {jwt : Jwt} {laws : JwtLaws jwt} {mongoose : Mongoose}.
Variable JWT_SECRET : string.
Variable bcrypt_hash : string -> nat -> string.
Variable bcrypt_compare : string -> string -> bool.

Lemma findOne_present (us : list User) (e : string) :
  (exists u, In u us /\ email u = e) ->
  exists u, find (by_email e) us = Some u.
Proof.
  intros (u & I & E).
  destruct (find (by_email e) us) as [v|] eqn:F.
  - now exists v.
  - apply find_none with (x := u) in F; [|exact I].
    unfold by_email in F. rewrite E, String.eqb_refl in F. discriminate F.
Qed.

Lemma findOne_email (us : list User) (e : string) (u : User) :
  find (by_email e) us = Some u -> In u us /\ email u = e.
Proof.
  intro F. apply find_some in F. destruct F as [I E].
  split; [exact I|]. now apply String.eqb_eq.
Qed.

(** [findOne] reads: it leaves the world as it is. *)
Lemma findOne_reads (e : JS.json) (w : world) :
  exists o, Db.findOne e w = (o, w).
Proof.
  unfold Db.findOne. destruct e; try (destruct (castFilter _)); eexists; reflexivity.
Qed.

Lemma findOne_string (s : string) (w : world) :
  Db.findOne (JS.Str s) w = (Returned (find (by_email s) (users w)), w).
Proof. reflexivity. Qed.

(** The user that [findOne] returns is stored and selected. *)
Lemma findOne_found (e : JS.json) (w w' : world) (u : User) :
  Db.findOne e w = (Returned (Some u), w') ->
  In u (users w) /\ Db.selects e u.
Proof.
  unfold Db.findOne, Db.selects.
  destruct e; try (destruct (castFilter _) as [f|] eqn:C; [|discriminate]);
    intros [= F _]; apply find_some in F; destruct F as [I E];
    (split; [exact I|]); try (now exists f).
  now apply String.eqb_eq.
Qed.

(** A registration either inserts the user and answers 201, or answers
    400, or answers 500; in the last two cases it changes nothing. *)
Lemma register_cases (body : RegisterBody) (now : nat) (w : world) :
  (exists n e p n' e',
     body = mkRegisterBody (Some n) (Some e) (Some (JS.Str p)) /\
     JS.truthy_json n = true /\ JS.truthy_json e = true /\
     JS.truthy_string p = true /\
     Db.findOne e w = (Returned None, w) /\
     Db.cast n = Some n' /\ Db.cast e = Some e' /\
     let u := mkUser (Db.fresh_id (users w)) n' e' (bcrypt_hash p 10) None in
     post_api_register JWT_SECRET bcrypt_hash body now w
     = (mkResponse 201
          (JToken (jwt_sign (_id u) JWT_SECRET one_hour now)
                  "사용자가 성공적으로 등록되었습니다."),
        mkWorld (users w ++ [u]) (conversations w) (effects w ++ [UserSaved u])))
  \/
  (status (fst (post_api_register JWT_SECRET bcrypt_hash body now w)) = 400 /\
   snd (post_api_register JWT_SECRET bcrypt_hash body now w) = w)
  \/
  post_api_register JWT_SECRET bcrypt_hash body now w = (server_error, w).
Proof.
  clear bcrypt_compare laws.
  unfold post_api_register. destruct body as [[n|] [e|] [p|]]; simpl;
    try (right; left; now split).
  destruct (JS.truthy_json n) eqn:Tn; simpl; [|right; left; now split].
  destruct (JS.truthy_json e) eqn:Te; simpl; [|right; left; now split].
  destruct (JS.truthy_json p) eqn:Tp; simpl; [|right; left; now split].
  unfold catch_all, bind.
  destruct (findOne_reads e w) as [o F]. rewrite F.
  destruct o as [[u|]|x]; [right; left; now split| |right; right; reflexivity].
  destruct p as [| | |p| |]; simpl; try (right; right; reflexivity).
  unfold Db.create.
  destruct (Db.cast n) as [n'|] eqn:Cn; [|right; right; reflexivity].
  destruct (Db.cast e) as [e'|] eqn:Ce; [|right; right; reflexivity].
  left. exists n, e, p, n', e'. now repeat split.
Qed.

(** A login answers 200 with a token of a stored user that the email
    selects, or 400, or 500; it changes nothing. *)
Lemma login_cases (body : LoginBody) (now : nat) (w : world) :
  snd (post_api_login JWT_SECRET bcrypt_compare body now w) = w /\
  ((exists e p u,
      body = mkLoginBody (Some e) (Some (JS.Str p)) /\
      JS.truthy_json e = true /\ JS.truthy_string p = true /\
      Db.findOne e w = (Returned (Some u), w) /\
      bcrypt_compare p (password u) = true /\
      fst (post_api_login JWT_SECRET bcrypt_compare body now w)
      = mkResponse 200
          (JToken (jwt_sign (_id u) JWT_SECRET one_hour now) "로그인 성공!"))
   \/
   status (fst (post_api_login JWT_SECRET bcrypt_compare body now w)) = 400
   \/
   fst (post_api_login JWT_SECRET bcrypt_compare body now w) = server_error).
Proof.
  clear bcrypt_hash laws.
  unfold post_api_login. destruct body as [[e|] [p|]]; simpl;
    try (split; [reflexivity|right; left; reflexivity]).
  destruct (JS.truthy_json e) eqn:Te; simpl;
    [|split; [reflexivity|right; left; reflexivity]].
  destruct (JS.truthy_json p) eqn:Tp; simpl;
    [|split; [reflexivity|right; left; reflexivity]].
  unfold catch_all, bind.
  destruct (findOne_reads e w) as [o F]. rewrite F.
  destruct o as [[u|]|x];
    [|split; [reflexivity|right; left; reflexivity]
     |split; [reflexivity|right; right; reflexivity]].
  destruct p as [| | |p| |]; simpl;
    try (split; [reflexivity|right; right; reflexivity]).
  destruct (bcrypt_compare p (password u)) eqn:C; simpl.
  - split; [reflexivity|]. left. exists e, p, u. now repeat split.
  - split; [reflexivity|right; left; reflexivity].
Qed.

(** C3: a registration whose email is that of a stored user is
    answered 400, and the world, the user collection with it, is left
    as it was. *)
Theorem C3_register_duplicate (body : RegisterBody) (now : nat) (w : world)
        (e : string) :
  reg_email body = Some (JS.Str e) ->
  (exists u, In u (users w) /\ email u = e) ->
  status (fst (post_api_register JWT_SECRET bcrypt_hash body now w)) = 400 /\
  snd (post_api_register JWT_SECRET bcrypt_hash body now w) = w.
Proof.
  intros E X. apply findOne_present in X. destruct X as [u F].
  destruct (register_cases body now w)
    as [(n & e0 & p & n' & e' & B & _ & _ & _ & G & _)|[H|H]].
  - exfalso. rewrite B in E. simpl in E. injection E as ->.
    rewrite findOne_string, F in G. discriminate G.
  - exact H.
  - exfalso. revert H. unfold post_api_register. rewrite E.
    destruct (reg_name body) as [n|]; [|discriminate].
    destruct (reg_password body) as [p|]; [|discriminate].
    destruct (JS.truthy_json n && JS.truthy_json (JS.Str e) && JS.truthy_json p);
      [|discriminate].
    unfold catch_all, bind. rewrite findOne_string, F. discriminate.
Qed.

(** C4, on the code: of two logins that carry the same truthy password
    that is not a string, the one for a stored email is answered 500 by
    the [catch], since [bcrypt.compare] rejects such data, and the one
    for an email that is not stored is answered 400: the two answers
    tell whether the email is stored. *)
Theorem C4_login_tells_stored (w : world) (e1 e2 : string) (p : JS.json)
        (u : User) (now1 now2 : nat) :
  JS.truthy_string e1 = true -> JS.truthy_string e2 = true ->
  JS.truthy_json p = true -> (forall s, p <> JS.Str s) ->
  find (by_email e1) (users w) = Some u ->
  find (by_email e2) (users w) = None ->
  post_api_login JWT_SECRET bcrypt_compare
    (mkLoginBody (Some (JS.Str e1)) (Some p)) now1 w
  = (server_error, w) /\
  post_api_login JWT_SECRET bcrypt_compare
    (mkLoginBody (Some (JS.Str e2)) (Some p)) now2 w
  = (bad_credentials, w).
Proof.
  intros T1 T2 Tp N F1 F2. unfold post_api_login; simpl.
  rewrite T1, T2, Tp; simpl. unfold catch_all, bind.
  fold (by_email e1) (by_email e2). rewrite F1, F2. split; [|reflexivity].
  destruct p; try reflexivity. now contradiction (N s).
Qed.

(** C6: the token that a registration or a login answers carries the
    [_id] of the user just inserted, respectively found; sent back at
    clock [later], the middleware lets it pass with that [_id] while
    [later] is less than an hour after the issue, and answers 403 from
    then on. *)
Theorem C6_token_lifetime (now : nat) (w w' : world) (r : Response) :
  (forall body,
     post_api_register JWT_SECRET bcrypt_hash body now w = (r, w') ->
     status r = 201 ->
     exists token m u,
       json r = JToken token m /\
       users w' = users w ++ [u] /\
       (exists v, reg_email body = Some v /\ Db.cast v = Some (email u)) /\
       (forall later, later < now + one_hour ->
          authenticateToken JWT_SECRET (Some ("Bearer " ++ token)%string) later
          = inr (mkPayload (_id u) now (now + one_hour))) /\
       (forall later, now + one_hour <= later ->
          authenticateToken JWT_SECRET (Some ("Bearer " ++ token)%string) later
          = inl invalid_token))
  /\
  (forall body,
     post_api_login JWT_SECRET bcrypt_compare body now w = (r, w') ->
     status r = 200 ->
     exists token m u,
       json r = JToken token m /\
       In u (users w) /\
       (exists v, login_email body = Some v /\ Db.selects v u) /\
       (forall later, later < now + one_hour ->
          authenticateToken JWT_SECRET (Some ("Bearer " ++ token)%string) later
          = inr (mkPayload (_id u) now (now + one_hour))) /\
       (forall later, now + one_hour <= later ->
          authenticateToken JWT_SECRET (Some ("Bearer " ++ token)%string) later
          = inl invalid_token)).
Proof.
  split; intros body R S.
  - destruct (register_cases body now w)
      as [(n & e & p & n' & e' & -> & _ & _ & _ & _ & _ & Ce & H)|[[H _]|H]].
    + cbv zeta in H. rewrite H in R. injection R as <- <-.
      eexists _, _, _. split; [reflexivity|].
      split; [reflexivity|]. split; [exists e; now split|].
      cbn [_id].
      split; intros later L; rewrite signed_token_lifetime.
      * apply Nat.ltb_lt in L. now rewrite L.
      * apply Nat.ltb_ge in L. now rewrite L.
    + rewrite R in H. simpl in H. congruence.
    + rewrite R in H. injection H as -> _. discriminate S.
  - destruct (login_cases body now w)
      as [_ [(e & p & u & -> & _ & _ & F & _ & H)|[H|H]]].
    + rewrite R in H. simpl in H. subst r.
      apply findOne_found in F. destruct F as [I Se].
      eexists _, _, u. split; [reflexivity|]. split; [exact I|].
      split; [exists e; now split|].
      split; intros later L; rewrite signed_token_lifetime.
      * apply Nat.ltb_lt in L. now rewrite L.
      * apply Nat.ltb_ge in L. now rewrite L.
    + rewrite R in H. simpl in H. congruence.
    + rewrite R in H. simpl in H. subst r. discriminate S.
Qed.

End Accounts.

(** ** The chat route *)

Section Chat.

Context {jwt : Jwt} {mongoose : Mongoose}.
Variable JWT_SECRET : string.
Variable openai_create : list Effect -> CompletionRequest -> option string.

Lemma completion_calls_app (a b : list Effect) :
  completion_calls (a ++ b) = completion_calls a ++ completion_calls b.
Proof.
  induction a as [|[u|r o] a IH]; simpl; rewrite ?IH; reflexivity.
Qed.

Lemma find_by_id_id (i : nat) (us : list User) (u : User) :
  find (by_id i) us = Some u -> _id u = i.
Proof. intro F. apply find_some in F. now apply Nat.eqb_eq. Qed.

(** Loading a user after it was saved gives what was saved. *)
Lemma find_saved (i : nat) (us : list User) (u u' : User) :
  find (by_id i) us = Some u -> _id u' = i ->
  find (by_id i) (saved_users u' us) = Some u'.
Proof.
  intros F E. induction us as [|x us IH]; [discriminate F|].
  simpl in *. unfold by_id in *. rewrite E.
  destruct (_id x =? i) eqn:X.
  - now rewrite E, Nat.eqb_refl.
  - rewrite X. now apply IH.
Qed.

(** A chat whose user has no record, or that brings no truthy
    systemRole, or one that does not cast to a string, throws before
    anything leaves the process. *)
Lemma chatbot_idle (body : ChatBody) (v : Payload) (w : world) :
  find (by_id (id v)) (users w) = None \/
  JS.truthy_value (chat_systemRole body) = false \/
  (exists r, chat_systemRole body = Some r /\ Db.cast r = None) ->
  chatbot_handler openai_create body v w = (chat_failed, w).
Proof.
  intro H. unfold chatbot_handler, catch_all, bind, Db.findById.
  fold (by_id (id v)).
  destruct (chat_systemRole body) as [r|]; [|reflexivity].
  destruct (JS.truthy_json r) eqn:T; [|reflexivity].
  destruct (find (by_id (id v)) (users w)) as [u|]; [|reflexivity].
  simpl. unfold Db.save_systemRole.
  destruct H as [H|[H|(r' & [= <-] & H)]]; try discriminate H.
  - simpl in H. congruence.
  - now rewrite H.
Qed.

(** A chat that brings a truthy systemRole that casts to a string, for
    a user with a record, saves the user with it and then throws. *)
Lemma chatbot_saves (body : ChatBody) (v : Payload) (w : world)
      (u : User) (r : JS.json) (s : string) :
  find (by_id (id v)) (users w) = Some u ->
  chat_systemRole body = Some r ->
  JS.truthy_json r = true ->
  Db.cast r = Some s ->
  chatbot_handler openai_create body v w
  = (chat_failed,
     mkWorld (saved_users (with_role u (Some s)) (users w)) (conversations w)
             (effects w ++ [UserSaved (with_role u (Some s))])).
Proof.
  intros F R T C. unfold chatbot_handler, catch_all, bind, Db.findById.
  fold (by_id (id v)). rewrite F, R, T. simpl.
  unfold Db.save_systemRole. rewrite C. reflexivity.
Qed.

(** Every chat is one of the two. *)
Lemma chatbot_cases (body : ChatBody) (v : Payload) (w : world) :
  chatbot_handler openai_create body v w = (chat_failed, w) \/
  exists u r s,
    find (by_id (id v)) (users w) = Some u /\
    chat_systemRole body = Some r /\
    JS.truthy_json r = true /\
    Db.cast r = Some s /\
    chatbot_handler openai_create body v w
    = (chat_failed,
       mkWorld (saved_users (with_role u (Some s)) (users w)) (conversations w)
               (effects w ++ [UserSaved (with_role u (Some s))])).
Proof.
  destruct (find (by_id (id v)) (users w)) as [u|] eqn:F;
    [|left; apply chatbot_idle; now left].
  destruct (chat_systemRole body) as [r|] eqn:R;
    [|left; apply chatbot_idle; right; left; now rewrite R].
  destruct (JS.truthy_json r) eqn:T;
    [|left; apply chatbot_idle; right; left; now rewrite R].
  destruct (Db.cast r) as [s|] eqn:C;
    [|left; apply chatbot_idle; right; right; now exists r].
  right. exists u, r, s. repeat split; trivial.
  now apply chatbot_saves with (r := r).
Qed.

(** A chat never calls the completion API and never touches the
    stored turns. *)
Lemma chatbot_frame (body : ChatBody) (v : Payload) (w : world) :
  let result := chatbot_handler openai_create body v w in
  fst result = chat_failed /\
  completion_calls (effects (snd result)) = completion_calls (effects w) /\
  conversations (snd result) = conversations w.
Proof.
  destruct (chatbot_cases body v w) as [E|(u & r & s & _ & _ & _ & _ & E)];
    cbv zeta; rewrite E; simpl.
  - now repeat split.
  - rewrite completion_calls_app. simpl. rewrite app_nil_r. now repeat split.
Qed.

(** C1, on the code: a chat forwards no history.  Whatever turns are
    stored for the user, the handler throws at the name [Conversation]
    before it reads them: it answers 500, calls the completion API not
    at all and stores no turn, and so does the chat that follows it. *)
Theorem C1_history_not_forwarded (body body2 : ChatBody) (v : Payload)
        (w : world) :
  let first := chatbot_handler openai_create body v w in
  let second := chatbot_handler openai_create body2 v (snd first) in
  fst first = chat_failed /\
  fst second = chat_failed /\
  completion_calls (effects (snd first)) = completion_calls (effects w) /\
  completion_calls (effects (snd second)) = completion_calls (effects w) /\
  conversations (snd second) = conversations w.
Proof.
  intros first second.
  destruct (chatbot_frame body v w) as (A & B & C).
  destruct (chatbot_frame body2 v (snd first)) as (A2 & B2 & C2).
  fold first in A, B, C. fold second in A2, B2, C2.
  repeat split; congruence.
Qed.


(** C9: a chat whose verified token names a user without a record is
    answered 500 and leaves the world as it was: the API is not called
    and no turn is stored. *)
Theorem C9_unknown_user (body : ChatBody) (authorization : JS.field)
        (now : nat) (verified : Payload) (w : world) :
  authenticateToken JWT_SECRET authorization now = inr verified ->
  find (by_id (id verified)) (users w) = None ->
  let result := post_api_chatbot JWT_SECRET openai_create body authorization now w in
  status (fst result) = 500 /\
  snd result = w /\
  completion_calls (effects (snd result)) = completion_calls (effects w) /\
  conversations (snd result) = conversations w.
Proof.
  intros A F result. subst result. unfold post_api_chatbot.
  erewrite protected_next by exact A.
  rewrite chatbot_idle by now left.
  now repeat split.
Qed.

End Chat.

(** ** Lookups in the user collection *)

Lemma find_app_found {A} (f : A -> bool) (l l' : list A) (x : A) :
  find f l = Some x -> find f (l ++ l') = Some x.
Proof.
  induction l as [|a l IH]; simpl; [discriminate|].
  destruct (f a); [trivial|exact IH].
Qed.

Lemma find_app_missing {A} (f : A -> bool) (l l' : list A) :
  find f l = None -> find f (l ++ l') = find f l'.
Proof.
  induction l as [|a l IH]; simpl; [reflexivity|].
  destruct (f a); [discriminate|exact IH].
Qed.

Lemma fresh_id_above (us : list User) (u : User) :
  In u us -> _id u < Db.fresh_id us.
Proof.
  unfold Db.fresh_id. induction us as [|x us IH]; simpl; intro I;
    [destruct I|].
  destruct I as [<-|I].
  - lia.
  - specialize (IH I). lia.
Qed.

Lemma fresh_id_unused (us : list User) :
  ~ In (Db.fresh_id us) (map _id us).
Proof.
  intro I. apply in_map_iff in I. destruct I as (u & E & I).
  apply fresh_id_above in I. lia.
Qed.

Lemma find_fresh_id (us : list User) :
  find (by_id (Db.fresh_id us)) us = None.
Proof.
  destruct (find (by_id (Db.fresh_id us)) us) as [u|] eqn:F; [|reflexivity].
  apply find_some in F. destruct F as [I E]. apply Nat.eqb_eq in E.
  apply fresh_id_above in I. lia.
Qed.

Lemma email_unused (us : list User) (e : string) :
  find (by_email e) us = None -> ~ In e (map email us).
Proof.
  intros F I. apply in_map_iff in I. destruct I as (u & E & I).
  apply find_none with (x := u) in F; [|exact I].
  unfold by_email in F. rewrite E, String.eqb_refl in F. discriminate F.
Qed.

Lemma NoDup_map_eq {A B} (f : A -> B) (l : list A) (x y : A) :
  NoDup (map f l) -> In x l -> In y l -> f x = f y -> x = y.
Proof.
  induction l as [|a l IH]; simpl; intros N X Y E; [destruct X|].
  inversion N as [|? ? NI N']; subst.
  destruct X as [<-|X], Y as [<-|Y]; trivial.
  - exfalso. apply NI. rewrite E. now apply in_map.
  - exfalso. apply NI. rewrite <- E. now apply in_map.
  - now apply IH.
Qed.

(** Saving a user keeps the [_id] of every stored document. *)
Lemma saved_users_ids (u' : User) (us : list User) :
  map _id (saved_users u' us) = map _id us.
Proof.
  unfold saved_users. rewrite map_map. apply map_ext. intro v.
  destruct (_id v =? _id u') eqn:E; [|reflexivity].
  apply Nat.eqb_eq in E. now symmetry.
Qed.

(** Saving a loaded user with a new [systemRole] keeps every email,
    when no two stored documents share an [_id]. *)
Lemma saved_users_emails (i : nat) (u : User) (r : JS.field) (us : list User) :
  NoDup (map _id us) ->
  find (by_id i) us = Some u ->
  map email (saved_users (with_role u r) us) = map email us.
Proof.
  intros N F. unfold saved_users. rewrite map_map. apply map_ext_in.
  intros v I. simpl. destruct (_id v =? _id u) eqn:E; [|reflexivity].
  apply Nat.eqb_eq in E. apply find_some in F. destruct F as [J _].
  now rewrite (@NoDup_map_eq _ _ _id us v u N I J E).
Qed.

(** Saving a user does not change what another [_id] finds. *)
Lemma find_saved_other (i : nat) (u' : User) (us : list User) :
  i <> _id u' ->
  find (by_id i) (saved_users u' us) = find (by_id i) us.
Proof.
  intro N. induction us as [|x us IH]; [reflexivity|].
  simpl. unfold by_id in *. destruct (_id x =? _id u') eqn:X.
  - apply Nat.eqb_eq in X.
    replace (_id u' =? i) with false by (symmetry; apply Nat.eqb_neq; congruence).
    replace (_id x =? i) with false by (symmetry; apply Nat.eqb_neq; congruence).
    exact IH.
  - destruct (_id x =? i); [reflexivity|exact IH].
Qed.


Lemma NoDup_snoc {A} (l : list A) (x : A) :
  NoDup l -> ~ In x l -> NoDup (l ++ [x]).
Proof.
  induction l as [|a l IH]; simpl; intros N I.
  - constructor; [intros []|constructor].
  - inversion N as [|? ? NI N']; subst. constructor.
    + intro J. apply in_app_or in J. destruct J as [J|[J|[]]].
      * now apply NI.
      * apply I. now left.
    + apply IH; [exact N'|]. intro J. apply I. now right.
Qed.

Lemma truthy_string_nonempty (s : string) :
  JS.truthy_string s = true -> s <> "".
Proof. destruct s; simpl; [discriminate|discriminate]. Qed.

Lemma nonempty_truthy_string (s : string) :
  s <> "" -> JS.truthy_string s = true.
Proof. destruct s; simpl; intro N; [now contradiction N|reflexivity]. Qed.

Lemma email_used (us : list User) (e : string) (u : User) :
  find (by_email e) us = Some u -> In e (map email us).
Proof.
  intro F. apply find_some in F. destruct F as [I E].
  apply String.eqb_eq in E. subst e. now apply in_map.
Qed.

Lemma email_unstored (us : list User) (e : string) :
  ~ In e (map email us) -> find (by_email e) us = None.
Proof.
  intro N. destruct (find (by_email e) us) as [u|] eqn:F; [|reflexivity].
  exfalso. apply N. now apply email_used with (u := u).
Qed.

(** A truthy value that is a string or falsy is a string, and casts to
    itself. *)
Lemma string_or_falsy_truthy (v : JS.json) :
  string_or_falsy (Some v) -> JS.truthy_json v = true ->
  exists s, v = JS.Str s /\ s <> "".
Proof.
  destruct v; simpl; intros H T; try congruence.
  exists s. split; [reflexivity|]. now apply truthy_string_nonempty.
Qed.

(** ** One request as a step of the world *)

Section Steps.

Context {jwt : Jwt} {mongoose : Mongoose}.
Variable JWT_SECRET : string.
Variable bcrypt_hash : string -> nat -> string.
Variable bcrypt_compare : string -> string -> bool.
Variable openai_create : list Effect -> CompletionRequest -> option string.

Lemma login_world (body : LoginBody) (now : nat) (w : world) :
  snd (post_api_login JWT_SECRET bcrypt_compare body now w) = w.
Proof. apply login_cases. Qed.

Lemma users_world (verified : Payload) (w : world) :
  snd (users_handler verified w) = w.
Proof. reflexivity. Qed.

Lemma register_step (body : RegisterBody) (now : nat) (w : world) :
  step w (snd (post_api_register JWT_SECRET bcrypt_hash body now w)).
Proof.
  destruct (register_cases JWT_SECRET bcrypt_hash body now w)
    as [(n & e & p & n' & e' & _ & _ & _ & _ & _ & _ & _ & H)|[[_ H]|H]].
  - cbv zeta in H. rewrite H. simpl. now apply step_insert.
  - rewrite H. apply step_idle.
  - rewrite H. apply step_idle.
Qed.

Lemma chatbot_step (body : ChatBody) (v : Payload) (w : world) :
  step w (snd (chatbot_handler openai_create body v w)).
Proof.
  destruct (chatbot_cases openai_create body v w)
    as [E|(u & r & s & F & _ & _ & _ & E)]; rewrite E; simpl.
  - apply step_idle.
  - now apply step_role with (i := id v).
Qed.

(** Every request is one step. *)
Lemma app_step (request : Request) (now : nat) (w : world) :
  step w (snd (app JWT_SECRET bcrypt_hash bcrypt_compare openai_create request now w)).
Proof.
  destruct request as [body|body|authorization|authorization body]; simpl.
  - apply register_step.
  - rewrite login_world. apply step_idle.
  - unfold get_api_users, protected.
    destruct (authenticateToken JWT_SECRET authorization now); apply step_idle.
  - unfold post_api_chatbot, protected.
    destruct (authenticateToken JWT_SECRET authorization now);
      [apply step_idle|apply chatbot_step].
Qed.

(** A property that every step keeps holds after every sequence of
    requests. *)
Lemma serve_invariant (P : world -> Prop) :
  (forall w w', step w w' -> P w -> P w') ->
  forall requests w,
    P w -> P (serve JWT_SECRET bcrypt_hash bcrypt_compare openai_create requests w).
Proof.
  intros K requests.
  induction requests as [|[request now] rest IH]; intros w H; simpl.
  - exact H.
  - apply IH. apply (K w); [apply app_step|exact H].
Qed.

(** A property that every request of a kind keeps holds after every
    sequence of requests of that kind. *)
Lemma serve_invariant_on (P : world -> Prop) (kind : Request * nat -> Prop) :
  (forall request now w,
     kind (request, now) -> P w ->
     P (snd (app JWT_SECRET bcrypt_hash bcrypt_compare openai_create request now w))) ->
  forall requests w,
    Forall kind requests -> P w ->
    P (serve JWT_SECRET bcrypt_hash bcrypt_compare openai_create requests w).
Proof.
  intros K requests.
  induction requests as [|[request now] rest IH]; intros w A H; simpl.
  - exact H.
  - inversion A as [|? ? A1 A2]; subst. apply IH; [exact A2|]. now apply K.
Qed.

End Steps.

(** ** What every step keeps *)

Lemma step_keeps_user (w w' : world) (i : nat) (u : User) :
  step w w' ->
  find (by_id i) (users w) = Some u ->
  exists u',
    find (by_id i) (users w') = Some u' /\
    _id u' = _id u /\ name u' = name u /\
    email u' = email u /\ password u' = password u.
Proof.
  intros S F. destruct S as [|x X|j v r G]; simpl.
  - exists u. now repeat split.
  - exists u. split; [now apply find_app_found|now repeat split].
  - destruct (Nat.eq_dec i j) as [->|N].
    + rewrite F in G. injection G as <-.
      exists (with_role u r). split; [|now repeat split].
      apply find_saved with (u := u); [exact F|]. apply (find_by_id_id _ _ F).
    + exists u. split; [|now repeat split].
      rewrite find_saved_other; [exact F|].
      simpl. rewrite (find_by_id_id _ _ G). exact N.
Qed.

Lemma step_grows (w w' : world) :
  step w w' ->
  exists ids cs es,
    map _id (users w') = map _id (users w) ++ ids /\
    conversations w' = conversations w ++ cs /\
    effects w' = effects w ++ es.
Proof.
  intro S. destruct S as [|x X|j v r G]; simpl.
  - exists [], [], []. now rewrite !app_nil_r.
  - do 3 eexists. rewrite map_app. split; [reflexivity|].
    split; [symmetry; apply app_nil_r|reflexivity].
  - exists [], []. eexists. rewrite saved_users_ids.
    split; [symmetry; apply app_nil_r|].
    split; [symmetry; apply app_nil_r|reflexivity].
Qed.

(** No step calls the completion API or touches the stored turns. *)
Lemma step_frame (w w' : world) :
  step w w' ->
  completion_calls (effects w') = completion_calls (effects w) /\
  conversations w' = conversations w.
Proof.
  intro S. destruct S as [|x X|j v r G]; simpl.
  - now split.
  - rewrite completion_calls_app. simpl. now rewrite app_nil_r.
  - rewrite completion_calls_app. simpl. now rewrite app_nil_r.
Qed.

(** ** Sequences of requests *)

Section Sequences.

Context {jwt : Jwt} {mongoose : Mongoose}.
Variable JWT_SECRET : string.
Variable bcrypt_hash : string -> nat -> string.
Variable bcrypt_compare : string -> string -> bool.
Variable openai_create : list Effect -> CompletionRequest -> option string.

(** C2, on the code: the completion API is never invoked.  A request
    to the chat route is answered 401, 403 or 500 and adds no call of
    [openai.chat.completions.create] to the effects, and no sequence
    of requests adds one. *)
Theorem C2_api_never_invoked :
  (forall body authorization now w,
     let result :=
       post_api_chatbot JWT_SECRET openai_create body authorization now w in
     (status (fst result) = 401 \/ status (fst result) = 403 \/
      status (fst result) = 500) /\
     completion_calls (effects (snd result)) = completion_calls (effects w))
  /\
  (forall requests w,
     completion_calls
       (effects (serve JWT_SECRET bcrypt_hash bcrypt_compare openai_create
                       requests w))
     = completion_calls (effects w)).
Proof.
  split.
  - intros body authorization now w result. subst result.
    unfold post_api_chatbot, protected, authenticateToken.
    destruct (bearer_token authorization) as [token|]; [|split; [now left|reflexivity]].
    destruct (JS.truthy_string token); [|split; [now left|reflexivity]].
    destruct (jwt_verify token JWT_SECRET now) as [v|];
      [|split; [right; now left|reflexivity]].
    destruct (chatbot_frame openai_create body v w) as (A & B & _).
    split; [right; right; now rewrite A|exact B].
  - intros requests w.
    apply (@serve_invariant jwt mongoose JWT_SECRET bcrypt_hash bcrypt_compare
             openai_create
             (fun x => completion_calls (effects x) = completion_calls (effects w)));
      [|reflexivity].
    intros x x' S H. destruct (step_frame S) as [E _]. congruence.
Qed.

Lemma register_unique (body : RegisterBody) (now : nat) (w : world) :
  string_or_falsy (reg_email body) ->
  unique_users w ->
  unique_users (snd (post_api_register JWT_SECRET bcrypt_hash body now w)).
Proof.
  intros P [Ni Ne].
  destruct (register_cases JWT_SECRET bcrypt_hash body now w)
    as [(n & e & p & n' & e' & -> & _ & Te & _ & F & _ & Ce & H)|[[_ H]|H]].
  - cbv zeta in H. rewrite H. unfold unique_users. simpl.
    destruct (string_or_falsy_truthy e P Te) as (s & -> & _).
    simpl in Ce. injection Ce as <-.
    rewrite findOne_string in F. injection F as F.
    rewrite !map_app. simpl. split; apply NoDup_snoc; trivial.
    + apply fresh_id_unused.
    + now apply email_unused.
  - rewrite H. now split.
  - rewrite H. now split.
Qed.

Lemma chatbot_unique (body : ChatBody) (v : Payload) (w : world) :
  unique_users w ->
  unique_users (snd (chatbot_handler openai_create body v w)).
Proof.
  intros [Ni Ne].
  destruct (chatbot_cases openai_create body v w)
    as [E|(u & r & s & F & _ & _ & _ & E)]; rewrite E; [now split|].
  unfold unique_users. simpl. rewrite saved_users_ids. split; [exact Ni|].
  now rewrite (@saved_users_emails (id v) u (Some s) (users w) Ni F).
Qed.

(** X1: whatever requests are served, no two stored users come to share
    an [_id] or an email when none did before: registration inserts a
    user only under an email that [findOne] did not find, and the chat
    saves a user back under its own [_id] and email.  The email of a
    registration is a string when it is truthy. *)
Theorem X1_users_stay_unique (requests : list (Request * nat)) (w : world) :
  Forall plain_email requests ->
  unique_users w ->
  unique_users
    (serve JWT_SECRET bcrypt_hash bcrypt_compare openai_create requests w).
Proof.
  apply (@serve_invariant_on jwt mongoose JWT_SECRET bcrypt_hash bcrypt_compare
           openai_create unique_users plain_email).
  intros request now x P U.
  destruct request as [body|body|authorization|authorization body]; simpl.
  - now apply register_unique.
  - now rewrite login_world.
  - unfold get_api_users, protected.
    now destruct (authenticateToken JWT_SECRET authorization now).
  - unfold post_api_chatbot, protected.
    destruct (authenticateToken JWT_SECRET authorization now); [exact U|].
    now apply chatbot_unique.
Qed.

(** X2: no request deletes a user or changes its name, email or
    password: a user found under an [_id] is found under it after any
    sequence of requests, with these fields as they were. *)
Theorem X2_users_are_kept (requests : list (Request * nat)) (w : world)
        (i : nat) (u : User) :
  find (by_id i) (users w) = Some u ->
  exists u',
    find (by_id i)
         (users (serve JWT_SECRET bcrypt_hash bcrypt_compare openai_create
                       requests w))
    = Some u' /\
    _id u' = _id u /\ name u' = name u /\
    email u' = email u /\ password u' = password u.
Proof.
  intro F.
  apply (@serve_invariant jwt mongoose JWT_SECRET bcrypt_hash bcrypt_compare
           openai_create
           (fun x => exists u', find (by_id i) (users x) = Some u' /\
                                _id u' = _id u /\ name u' = name u /\
                                email u' = email u /\ password u' = password u)).
  - intros x x' S (v & Fv & Ei & En & Ee & Ep).
    destruct (step_keeps_user i S Fv) as (v' & Fv' & Ei' & En' & Ee' & Ep').
    exists v'. repeat split; congruence.
  - exists u. now repeat split.
Qed.

(** X3: the collections only grow: after any sequence of requests the
    stored users are the ones before, in their order and under their
    [_id], followed by new ones; the stored turns are the ones before
    followed by new ones, and so are the effects. *)
Theorem X3_collections_only_grow (requests : list (Request * nat)) (w : world) :
  let w' := serve JWT_SECRET bcrypt_hash bcrypt_compare openai_create requests w in
  exists ids cs es,
    map _id (users w') = map _id (users w) ++ ids /\
    conversations w' = conversations w ++ cs /\
    effects w' = effects w ++ es.
Proof.
  apply (@serve_invariant jwt mongoose JWT_SECRET bcrypt_hash bcrypt_compare
           openai_create
           (fun x => exists ids cs es,
                       map _id (users x) = map _id (users w) ++ ids /\
                       conversations x = conversations w ++ cs /\
                       effects x = effects w ++ es)).
  - intros x x' S (ids & cs & es & U & C & E).
    destruct (step_grows S) as (ids' & cs' & es' & U' & C' & E').
    exists (ids ++ ids'), (cs ++ cs'), (es ++ es').
    rewrite U', C', E', U, C, E. now rewrite !app_assoc.
  - exists [], [], []. now rewrite !app_nil_r.
Qed.

(** Registration leaves the turns and the calls of the API alone. *)
Lemma register_frame (body : RegisterBody) (now : nat) (w : world) :
  let w' := snd (post_api_register JWT_SECRET bcrypt_hash body now w) in
  conversations w' = conversations w /\
  completion_calls (effects w') = completion_calls (effects w).
Proof.
  destruct (step_frame (register_step JWT_SECRET bcrypt_hash body now w)) as [E C].
  now split.
Qed.

(** X4: only the chat route reaches the completion API and the
    conversation collection: any other request leaves the stored turns
    and the calls of the API as they were, and a login or a listing of
    the users leaves the whole world as it was. *)
Theorem X4_only_chat_calls (request : Request) (now : nat) (w : world) :
  (forall authorization body, request <> PostChatbot authorization body) ->
  let w' :=
    snd (app JWT_SECRET bcrypt_hash bcrypt_compare openai_create request now w) in
  conversations w' = conversations w /\
  completion_calls (effects w') = completion_calls (effects w) /\
  ((forall body, request <> PostRegister body) -> w' = w).
Proof.
  intros N w'. subst w'.
  destruct request as [body|body|authorization|authorization body]; simpl.
  - destruct (register_frame body now w) as [C E]. cbv zeta in C, E.
    split; [exact C|]. split; [exact E|]. intro K. now contradiction (K body).
  - rewrite login_world. now repeat split.
  - unfold get_api_users, protected.
    destruct (authenticateToken JWT_SECRET authorization now); now repeat split.
  - now contradiction (N authorization body).
Qed.

(** X5: a chat of one user leaves every other user alone: the history
    of another user and the record found under another [_id] are after
    the chat what they were before. *)
Theorem X5_chat_isolation (body : ChatBody) (v : Payload) (w : world) (j : nat) :
  j <> id v ->
  let w' := snd (chatbot_handler openai_create body v w) in
  history j w' = history j w /\
  find (by_id j) (users w') = find (by_id j) (users w).
Proof.
  intros N w'. subst w'.
  destruct (chatbot_cases openai_create body v w)
    as [E|(u & r & s & F & _ & _ & _ & E)]; rewrite E; [now split|].
  split; [reflexivity|]. simpl.
  apply find_saved_other. simpl. now rewrite (find_by_id_id _ _ F).
Qed.

Lemma register_roles (body : RegisterBody) (now : nat) (w : world) :
  roles_nonempty w ->
  roles_nonempty (snd (post_api_register JWT_SECRET bcrypt_hash body now w)).
Proof.
  intro N.
  destruct (register_cases JWT_SECRET bcrypt_hash body now w)
    as [(n & e & p & n' & e' & _ & _ & _ & _ & _ & _ & _ & H)|[[_ H]|H]].
  - cbv zeta in H. rewrite H. intros x I. simpl in I.
    apply in_app_or in I. destruct I as [I|[<-|[]]]; [now apply N|discriminate].
  - now rewrite H.
  - now rewrite H.
Qed.

Lemma chatbot_roles (body : ChatBody) (v : Payload) (w : world) :
  string_or_falsy (chat_systemRole body) ->
  roles_nonempty w ->
  roles_nonempty (snd (chatbot_handler openai_create body v w)).
Proof.
  intros P N.
  destruct (chatbot_cases openai_create body v w)
    as [E|(u & r & s & F & R & T & C & E)]; rewrite E; [exact N|].
  rewrite R in P. destruct (string_or_falsy_truthy r P T) as (s' & -> & Ns).
  simpl in C. injection C as <-.
  intros x I. simpl in I. unfold saved_users in I.
  apply in_map_iff in I. destruct I as (y & Y & I).
  destruct (_id y =? _); [|subst; now apply N].
  subst x. simpl. intros [= X]. now apply Ns.
Qed.

(** X13: no request stores the empty string as a systemRole: when no
    stored systemRole is empty, none is after any sequence of
    requests.  The systemRole of a chat is a string when it is
    truthy. *)
Theorem X13_roles_stay_nonempty (requests : list (Request * nat)) (w : world) :
  Forall plain_role requests ->
  roles_nonempty w ->
  roles_nonempty
    (serve JWT_SECRET bcrypt_hash bcrypt_compare openai_create requests w).
Proof.
  apply (@serve_invariant_on jwt mongoose JWT_SECRET bcrypt_hash bcrypt_compare
           openai_create roles_nonempty plain_role).
  intros request now x P N.
  destruct request as [body|body|authorization|authorization body]; simpl.
  - now apply register_roles.
  - now rewrite login_world.
  - unfold get_api_users, protected.
    now destruct (authenticateToken JWT_SECRET authorization now).
  - unfold post_api_chatbot, protected.
    destruct (authenticateToken JWT_SECRET authorization now); [exact N|].
    now apply chatbot_roles.
Qed.

(** X11: registration and login compose: when [bcrypt.compare] accepts
    a password against its own hash, a login with the email and the
    password of a registration that was answered 201 is answered 200,
    with a token for the [_id] the registration gave the user. *)
Theorem X11_register_then_login (n e p : string) (now later : nat) (w : world) :
  n <> "" -> e <> "" -> p <> "" ->
  ~ In e (map email (users w)) ->
  bcrypt_compare p (bcrypt_hash p 10) = true ->
  let registered :=
    post_api_register JWT_SECRET bcrypt_hash
      (mkRegisterBody (Some (JS.Str n)) (Some (JS.Str e)) (Some (JS.Str p)))
      now w in
  exists i m m',
    fst registered = mkResponse 201 (JToken (jwt_sign i JWT_SECRET one_hour now) m) /\
    post_api_login JWT_SECRET bcrypt_compare
      (mkLoginBody (Some (JS.Str e)) (Some (JS.Str p))) later (snd registered)
    = (mkResponse 200 (JToken (jwt_sign i JWT_SECRET one_hour later) m'),
       snd registered).
Proof.
  intros Nn Ne Np NI C registered. subst registered.
  apply nonempty_truthy_string in Nn, Ne, Np. apply email_unstored in NI.
  unfold post_api_register.
  cbn [reg_name reg_email reg_password JS.truthy_json].
  rewrite Nn, Ne, Np. cbn [andb].
  unfold catch_all, bind. rewrite findOne_string, NI.
  cbn [await_bcrypt_hash ret Db.create Db.cast Db.insert_user fst snd].
  do 3 eexists. split; [reflexivity|].
  unfold post_api_login.
  cbn [login_email login_password JS.truthy_json].
  rewrite Ne, Np. cbn [andb].
  unfold catch_all, bind. rewrite findOne_string. cbn [users].
  rewrite find_app_missing by exact NI. cbn [find].
  unfold by_email at 1. cbn [email]. rewrite String.eqb_refl.
  cbn [await_bcrypt_compare ret password]. rewrite C. reflexivity.
Qed.

(** X14: a header made of ["Bearer "] and a token hands exactly that
    token to [jwt.verify], also when the token itself holds
    ["Bearer "]: the answer is 401 when the token is empty, 403 when it
    does not verify, and the verified payload otherwise. *)
Theorem X14_bearer_header (token : string) (now : nat) :
  bearer_token (Some ("Bearer " ++ token)%string) = Some token /\
  authenticateToken JWT_SECRET (Some ("Bearer " ++ token)%string) now
  = match token with
    | EmptyString => inl no_token
    | String _ _ =>
        match jwt_verify token JWT_SECRET now with
        | Some verified => inr verified
        | None => inl invalid_token
        end
    end.
Proof.
  assert (B : bearer_token (Some ("Bearer " ++ token)%string) = Some token).
  { unfold bearer_token, option_map. f_equal. apply replace_Bearer_prefix. }
  split; [exact B|].
  unfold authenticateToken. rewrite B. now destruct token.
Qed.

End Sequences.

(** ** The routes one by one *)

Section Routes.

Context {jwt : Jwt} {mongoose : Mongoose}.
Variable JWT_SECRET : string.
Variable bcrypt_hash : string -> nat -> string.
Variable bcrypt_compare : string -> string -> bool.
Variable openai_create : list Effect -> CompletionRequest -> option string.

(** Where the users come from that are stored after a request. *)
Lemma app_users (request : Request) (now : nat) (w : world) (u' : User) :
  In u' (users (snd (app JWT_SECRET bcrypt_hash bcrypt_compare openai_create
                         request now w))) ->
  (exists u, In u (users w) /\ name u' = name u /\ email u' = email u /\
             password u' = password u) \/
  created_by bcrypt_hash [(request, now)] u'.
Proof.
  assert (K : In u' (users w) ->
              exists u, In u (users w) /\ name u' = name u /\
                        email u' = email u /\ password u' = password u).
  { intro I. exists u'. now repeat split. }
  destruct request as [body|body|authorization|authorization body]; simpl.
  - destruct (register_cases JWT_SECRET bcrypt_hash body now w)
      as [(n & e & p & n' & e' & B & _ & _ & Tp & _ & Cn & Ce & H)|[[_ H]|H]].
    + cbv zeta in H. rewrite H. simpl. intro I.
      apply in_app_or in I. destruct I as [I|[<-|[]]]; [left; now apply K|].
      right. exists body, now, n, e, p. simpl.
      repeat split; trivial; [now left|now apply truthy_string_nonempty].
    + rewrite H. intro I. left. now apply K.
    + rewrite H. intro I. left. now apply K.
  - rewrite login_world. intro I. left. now apply K.
  - unfold get_api_users, protected.
    destruct (authenticateToken JWT_SECRET authorization now);
      intro I; left; now apply K.
  - unfold post_api_chatbot, protected.
    destruct (authenticateToken JWT_SECRET authorization now) as [a|v];
      [intro I; left; now apply K|].
    destruct (chatbot_cases openai_create body v w)
      as [E|(u & r & s & F & _ & _ & _ & E)]; rewrite E;
      [intro I; left; now apply K|].
    simpl. intro I. left. unfold saved_users in I.
    apply in_map_iff in I. destruct I as (y & Y & I).
    destruct (_id y =? _); [|subst; now apply K].
    subst u'. exists u. apply find_some in F. destruct F as [F _].
    now repeat split.
Qed.

Lemma created_by_more (done more : list (Request * nat)) (u : User) :
  created_by bcrypt_hash done u \/ created_by bcrypt_hash more u ->
  created_by bcrypt_hash (done ++ more) u.
Proof.
  intros [H|H]; destruct H as (body & now & n & e & p & I & H);
    exists body, now, n, e, p; (split; [|exact H]); apply in_or_app; tauto.
Qed.

Lemma created_by_same (requests : list (Request * nat)) (u u' : User) :
  name u' = name u -> email u' = email u -> password u' = password u ->
  created_by bcrypt_hash requests u -> created_by bcrypt_hash requests u'.
Proof.
  intros En Ee Ep (body & now & n & e & p & I & B & Np & Cn & Ce & P).
  exists body, now, n, e, p. rewrite En, Ee, Ep. now repeat split.
Qed.

Lemma serve_created (requests done : list (Request * nat)) (w : world) :
  (forall u, In u (users w) -> created_by bcrypt_hash done u) ->
  forall u,
    In u (users (serve JWT_SECRET bcrypt_hash bcrypt_compare openai_create
                       requests w)) ->
    created_by bcrypt_hash (done ++ requests) u.
Proof.
  intros H.
  revert done w H.
  induction requests as [|[request now] rest IH]; intros done w H u I; simpl in I.
  - rewrite app_nil_r. now apply H.
  - replace (done ++ (request, now) :: rest)
      with ((done ++ [(request, now)]) ++ rest)
      by (now rewrite <- app_assoc).
    eapply IH; [|exact I].
    intros x X. apply created_by_more.
    destruct (app_users request now w x X) as [(y & Y & En & Ee & Ep)|C].
    + left. apply created_by_same with (u := y); trivial. now apply H.
    + now right.
Qed.

(** X8: every user stored after a sequence of requests that started
    from empty collections was asked for by a registration of the
    sequence: its name and email are the casts of the name and email
    that were sent, and its password is [bcrypt.hash], with cost 10, of
    the password that was sent, a string that is not empty. *)
Theorem X8_stored_users_registered (requests : list (Request * nat)) (u : User) :
  In u (users (serve JWT_SECRET bcrypt_hash bcrypt_compare openai_create
                     requests (mkWorld [] [] []))) ->
  created_by bcrypt_hash requests u.
Proof.
  intro I.
  apply serve_created with (done := []) in I; [exact I|intros x []].
Qed.

(** X9: a registration is answered 201, 400 or 500, and changes
    nothing unless it is answered 201.  On 201 one user is inserted,
    under the [_id] that the token carries, with the casts of the name
    and email that were sent, the hash of the password that was sent,
    a string, and no systemRole.  When name, email and password are
    strings, the answer is 201 exactly when none is empty and no
    stored user has the email, and 400 otherwise.  When the password
    is truthy and not a string, name and email being non-empty strings
    and the email not stored, the answer is the 500 of the [catch]. *)
Theorem X9_register_outcome (body : RegisterBody) (now : nat) (w : world) :
  let result := post_api_register JWT_SECRET bcrypt_hash body now w in
  (status (fst result) = 201 \/ status (fst result) = 400 \/
   status (fst result) = 500) /\
  (status (fst result) <> 201 -> snd result = w) /\
  (status (fst result) = 201 ->
   exists u m n e p,
     body = mkRegisterBody (Some n) (Some e) (Some (JS.Str p)) /\
     Db.cast n = Some (name u) /\ Db.cast e = Some (email u) /\
     password u = bcrypt_hash p 10 /\ systemRole u = None /\
     json (fst result) = JToken (jwt_sign (_id u) JWT_SECRET one_hour now) m /\
     users (snd result) = users w ++ [u] /\
     find (by_id (_id u)) (users (snd result)) = Some u) /\
  (forall n e p : string,
     body = mkRegisterBody (Some (JS.Str n)) (Some (JS.Str e)) (Some (JS.Str p)) ->
     (status (fst result) = 201 <->
      n <> "" /\ e <> "" /\ p <> "" /\ ~ In e (map email (users w))) /\
     (status (fst result) <> 201 -> status (fst result) = 400)) /\
  (forall (n e : string) (p : JS.json),
     body = mkRegisterBody (Some (JS.Str n)) (Some (JS.Str e)) (Some p) ->
     n <> "" -> e <> "" -> ~ In e (map email (users w)) ->
     JS.truthy_json p = true -> (forall s, p <> JS.Str s) ->
     fst result = server_error).
Proof.
  clear bcrypt_compare openai_create.
  intro result. subst result. split; [|split; [|split; [|split]]].
  - destruct (register_cases JWT_SECRET bcrypt_hash body now w)
      as [(n & e & p & n' & e' & _ & _ & _ & _ & _ & _ & _ & H)|[[H _]|H]].
    + cbv zeta in H. rewrite H. now left.
    + right. now left.
    + rewrite H. right. now right.
  - destruct (register_cases JWT_SECRET bcrypt_hash body now w)
      as [(n & e & p & n' & e' & _ & _ & _ & _ & _ & _ & _ & H)|[[_ H]|H]].
    + cbv zeta in H. rewrite H. intro N. now contradiction N.
    + intros _. exact H.
    + intros _. now rewrite H.
  - destruct (register_cases JWT_SECRET bcrypt_hash body now w)
      as [(n & e & p & n' & e' & B & _ & _ & _ & _ & Cn & Ce & H)|[[H _]|H]].
    + cbv zeta in H. rewrite H. intros _.
      exists (mkUser (Db.fresh_id (users w)) n' e' (bcrypt_hash p 10) None).
      eexists. exists n, e, p. simpl. repeat split; trivial.
      rewrite find_app_missing by apply find_fresh_id. simpl.
      unfold by_id. simpl. now rewrite Nat.eqb_refl.
    + intro S. congruence.
    + rewrite H. discriminate.
  - intros n e p ->. unfold post_api_register.
    cbn [reg_name reg_email reg_password JS.truthy_json].
    destruct n as [|cn n]; [simpl; split; [split; [discriminate|tauto]|reflexivity]|].
    destruct e as [|ce e]; [simpl; split; [split; [discriminate|tauto]|reflexivity]|].
    destruct p as [|cp p]; [simpl; split; [split; [discriminate|tauto]|reflexivity]|].
    cbn [JS.truthy_string andb]. unfold catch_all, bind. rewrite findOne_string.
    destruct (find (by_email (String ce e)) (users w)) as [u|] eqn:F.
    + simpl. split; [|reflexivity]. split; [discriminate|].
      intros (_ & _ & _ & NI). exfalso. apply NI. now apply email_used with (u := u).
    + simpl. split; [|intro N; now contradiction N].
      split; [|reflexivity]. intros _.
      repeat split; try discriminate. now apply email_unused.
  - intros n e p -> Nn Ne NI Tp Np.
    apply nonempty_truthy_string in Nn, Ne. apply email_unstored in NI.
    unfold post_api_register.
    cbn [reg_name reg_email reg_password JS.truthy_json].
    rewrite Nn, Ne, Tp. cbn [andb]. unfold catch_all, bind.
    rewrite findOne_string, NI.
    destruct p; try reflexivity. now contradiction (Np s).
Qed.

(** X10: a login changes nothing and is answered 200, 400 or 500.  On
    200 the token carries the [_id] of a stored user that the email
    selects and whose stored hash [bcrypt.compare] accepts for the
    password that was sent, a string.  When email and password are
    strings, the answer is 200 exactly when neither is empty, a stored
    user has the email and the password matches the stored hash of the
    first such user, and 400 otherwise. *)
Theorem X10_login_outcome (body : LoginBody) (now : nat) (w : world) :
  let result := post_api_login JWT_SECRET bcrypt_compare body now w in
  snd result = w /\
  (status (fst result) = 200 \/ status (fst result) = 400 \/
   status (fst result) = 500) /\
  (status (fst result) = 200 ->
   exists u m e p,
     body = mkLoginBody (Some e) (Some (JS.Str p)) /\
     In u (users w) /\ Db.selects e u /\
     bcrypt_compare p (password u) = true /\
     json (fst result) = JToken (jwt_sign (_id u) JWT_SECRET one_hour now) m) /\
  (forall e p : string,
     body = mkLoginBody (Some (JS.Str e)) (Some (JS.Str p)) ->
     (status (fst result) = 200 <->
      e <> "" /\ p <> "" /\
      exists u, find (by_email e) (users w) = Some u /\
                bcrypt_compare p (password u) = true) /\
     (status (fst result) <> 200 -> status (fst result) = 400)).
Proof.
  clear bcrypt_hash openai_create.
  intro result. subst result.
  destruct (login_cases JWT_SECRET bcrypt_compare body now w) as [W D].
  split; [exact W|]. split; [|split].
  - destruct D as [(e & p & u & _ & _ & _ & _ & _ & H)|[H|H]].
    + rewrite H. now left.
    + right. now left.
    + rewrite H. right. now right.
  - destruct D as [(e & p & u & B & _ & _ & F & C & H)|[H|H]].
    + rewrite H. intros _. apply findOne_found in F. destruct F as [I S].
      exists u. eexists. exists e, p. now repeat split.
    + intro S. congruence.
    + rewrite H. discriminate.
  - intros e p ->. unfold post_api_login.
    cbn [login_email login_password JS.truthy_json].
    destruct e as [|ce e];
      [simpl; split; [split; [discriminate|tauto]|reflexivity]|].
    destruct p as [|cp p];
      [simpl; split; [split; [discriminate|tauto]|reflexivity]|].
    cbn [JS.truthy_string andb]. unfold catch_all, bind. rewrite findOne_string.
    destruct (find (by_email (String ce e)) (users w)) as [u|] eqn:F.
    + cbn [await_bcrypt_compare ret].
      destruct (bcrypt_compare (String cp p) (password u)) eqn:C; simpl.
      * split; [|intro N; now contradiction N]. split; [|reflexivity].
        intros _. repeat split; try discriminate. now exists u.
      * split; [|reflexivity]. split; [discriminate|].
        intros (_ & _ & u' & [= <-] & C'). congruence.
    + simpl. split; [|reflexivity]. split; [discriminate|].
      intros (_ & _ & u' & F' & _). discriminate F'.
Qed.

End Routes.

(** ** The server on concrete requests *)

Lemma roles_nonempty_crew : roles_nonempty Toy.crew.
Proof.
  intros u [<-|[<-|[]]]; discriminate.
Defined.

Lemma unique_users_crew : unique_users Toy.crew.
Proof.
  split; simpl; repeat constructor; simpl; intuition discriminate.
Defined.

Lemma plain_email_session : Forall plain_email Toy.session.
Proof.
  repeat (constructor; [exact I|]). constructor.
Defined.

Lemma plain_role_session : Forall plain_role Toy.session.
Proof.
  repeat (constructor; [exact I|]). constructor.
Defined.

Lemma C1_witness :
  let first := chatbot_handler Toy.echo Toy.set_sail (Toy.token_of 1) Toy.crew in
  let second :=
    chatbot_handler Toy.echo Toy.drop_anchor (Toy.token_of 1) (snd first) in
  find (by_id 1) (users Toy.crew) = Some Toy.luffy /\
  length (history 1 Toy.crew) = 2 /\
  fst first = chat_failed /\
  fst second = chat_failed /\
  completion_calls (effects (snd first)) = [] /\
  completion_calls (effects (snd second)) = [] /\
  conversations (snd second) = conversations Toy.crew.
Proof.
  intros first second. split; [reflexivity|]. split; [reflexivity|].
  exact (@C1_history_not_forwarded toy_mongoose Toy.echo Toy.set_sail
           Toy.drop_anchor (Toy.token_of 1) Toy.crew).
Defined.

Lemma C2_witness :
  let result :=
    post_api_chatbot Toy.secret Toy.echo Toy.set_sail Toy.bearer_1 10 Toy.crew in
  authenticateToken Toy.secret Toy.bearer_1 10 = inr (mkPayload 1 0 11) /\
  find (by_id 1) (users Toy.crew) = Some Toy.luffy /\
  status (fst result) = 500 /\
  completion_calls (effects (snd result)) = [] /\
  completion_calls
    (effects (serve Toy.secret Toy.hash Toy.compare Toy.echo Toy.session Toy.crew))
  = [].
Proof.
  intro result. split; [reflexivity|]. split; [reflexivity|].
  split; [reflexivity|].
  destruct (@C2_api_never_invoked toy_jwt toy_mongoose Toy.secret Toy.hash
              Toy.compare Toy.echo) as [One All].
  split.
  - exact (proj2 (One Toy.set_sail Toy.bearer_1 10 Toy.crew)).
  - exact (All Toy.session Toy.crew).
Defined.

Lemma C3_witness :
  let first := post_api_register Toy.secret Toy.hash Toy.zoro 0 Toy.crew in
  let again := post_api_register Toy.secret Toy.hash Toy.zoro 5 (snd first) in
  status (fst first) = 201 /\
  reg_email Toy.zoro = Some (JS.Str "zoro@grandline.sea") /\
  (exists u, In u (users (snd first)) /\ email u = "zoro@grandline.sea") /\
  status (fst again) = 400 /\
  snd again = snd first.
Proof.
  split; [reflexivity|]. split; [reflexivity|].
  assert (X : exists u,
             In u (users (snd (post_api_register Toy.secret Toy.hash Toy.zoro 0
                                                 Toy.crew)))
             /\ email u = "zoro@grandline.sea").
  { eexists. split; [right; right; left; reflexivity|reflexivity]. }
  split; [exact X|].
  exact (@C3_register_duplicate toy_jwt toy_mongoose Toy.secret Toy.hash Toy.zoro 5
           (snd (post_api_register Toy.secret Toy.hash Toy.zoro 0 Toy.crew))
           "zoro@grandline.sea" eq_refl X).
Defined.

Lemma C4_witness :
  find (by_email "luffy@grandline.sea") (users Toy.crew) = Some Toy.luffy /\
  find (by_email "zoro@grandline.sea") (users Toy.crew) = None /\
  JS.truthy_json (JS.Number 123) = true /\
  post_api_login Toy.secret Toy.compare
    (mkLoginBody (Toy.str "luffy@grandline.sea") (Some (JS.Number 123))) 0 Toy.crew
  = (server_error, Toy.crew) /\
  post_api_login Toy.secret Toy.compare
    (mkLoginBody (Toy.str "zoro@grandline.sea") (Some (JS.Number 123))) 9 Toy.crew
  = (bad_credentials, Toy.crew) /\
  status server_error = 500 /\
  status bad_credentials = 400.
Proof.
  assert (N : forall s, JS.Number 123 <> JS.Str s) by discriminate.
  split; [reflexivity|]. split; [reflexivity|]. split; [reflexivity|].
  destruct (@C4_login_tells_stored toy_jwt toy_mongoose Toy.secret Toy.compare
              Toy.crew "luffy@grandline.sea" "zoro@grandline.sea"
              (JS.Number 123) Toy.luffy 0 9
              eq_refl eq_refl eq_refl N eq_refl eq_refl) as [Stored Unknown].
  split; [exact Stored|]. split; [exact Unknown|]. split; reflexivity.
Defined.

Lemma C5_witness :
  (get_api_users Toy.secret None 10 Toy.crew = (no_token, Toy.crew) /\
   post_api_chatbot Toy.secret Toy.echo Toy.set_sail None 10 Toy.crew
   = (no_token, Toy.crew)) /\
  (get_api_users Toy.secret (Some "Bearer 1.2.3") 10 Toy.crew
   = (invalid_token, Toy.crew) /\
   post_api_chatbot Toy.secret Toy.echo Toy.set_sail (Some "Bearer 1.2.3") 10 Toy.crew
   = (invalid_token, Toy.crew)) /\
  (get_api_users Toy.secret (Some "Bearer 1...111111") 10 Toy.crew
   = (invalid_token, Toy.crew) /\
   post_api_chatbot Toy.secret Toy.echo Toy.set_sail (Some "Bearer 1...111111") 10 Toy.crew
   = (invalid_token, Toy.crew)) /\
  (authenticateToken Toy.secret (Some "Bearer 1..11111111111.111111") 10
   = inr (mkPayload 1 0 11) /\
   get_api_users Toy.secret (Some "Bearer 1..11111111111.111111") 10 Toy.crew
   = users_handler (mkPayload 1 0 11) Toy.crew /\
   post_api_chatbot Toy.secret Toy.echo Toy.set_sail
     (Some "Bearer 1..11111111111.111111") 10 Toy.crew
   = chatbot_handler Toy.echo Toy.set_sail (mkPayload 1 0 11) Toy.crew).
Proof.
  split; [|split; [|split]].
  - exact (proj1 (@C5_protected_routes toy_jwt toy_mongoose Toy.secret Toy.echo
                    Toy.set_sail None 10 Toy.crew) eq_refl).
  - exact (proj1 (proj2 (@C5_protected_routes toy_jwt toy_mongoose Toy.secret
                           Toy.echo Toy.set_sail (Some "Bearer 1.2.3") 10
                           Toy.crew))
             "1.2.3" eq_refl eq_refl eq_refl).
  - exact (proj1 (proj2 (@C5_protected_routes toy_jwt toy_mongoose Toy.secret
                           Toy.echo Toy.set_sail (Some "Bearer 1...111111") 10
                           Toy.crew))
             "1...111111" eq_refl eq_refl eq_refl).
  - exact (proj2 (proj2 (@C5_protected_routes toy_jwt toy_mongoose Toy.secret
                           Toy.echo Toy.set_sail
                           (Some "Bearer 1..11111111111.111111") 10 Toy.crew))
             "1..11111111111.111111" (mkPayload 1 0 11) eq_refl eq_refl eq_refl).
Defined.

Lemma C6_witness :
  let issued := post_api_register Toy.secret Toy.hash Toy.zoro 100 Toy.crew in
  status (fst issued) = 201 /\
  exists token m u,
    json (fst issued) = JToken token m /\
    users (snd issued) = users Toy.crew ++ [u] /\
    (exists v, reg_email Toy.zoro = Some v /\ Db.cast v = Some (email u)) /\
    (forall later, later < 100 + one_hour ->
       authenticateToken Toy.secret (Some ("Bearer " ++ token)%string) later
       = inr (mkPayload (_id u) 100 (100 + one_hour))) /\
    (forall later, 100 + one_hour <= later ->
       authenticateToken Toy.secret (Some ("Bearer " ++ token)%string) later
       = inl invalid_token).
Proof.
  split; [reflexivity|].
  exact (proj1 (@C6_token_lifetime toy_jwt toy_jwt_laws toy_mongoose Toy.secret
                  Toy.hash Toy.compare 100 Toy.crew
                  (snd (post_api_register Toy.secret Toy.hash Toy.zoro 100 Toy.crew))
                  (fst (post_api_register Toy.secret Toy.hash Toy.zoro 100 Toy.crew)))
           Toy.zoro eq_refl eq_refl).
Defined.



Lemma C9_witness :
  let result :=
    post_api_chatbot Toy.secret Toy.echo Toy.set_sail
      (Some "Bearer 1111111..11111111111.111111") 10 Toy.crew in
  authenticateToken Toy.secret (Some "Bearer 1111111..11111111111.111111") 10
  = inr (mkPayload 7 0 11) /\
  find (by_id 7) (users Toy.crew) = None /\
  status (fst result) = 500 /\
  snd result = Toy.crew /\
  completion_calls (effects (snd result)) = completion_calls (effects Toy.crew) /\
  conversations (snd result) = conversations Toy.crew.
Proof.
  split; [reflexivity|]. split; [reflexivity|].
  exact (@C9_unknown_user toy_jwt toy_mongoose Toy.secret Toy.echo Toy.set_sail
           (Some "Bearer 1111111..11111111111.111111") 10 (mkPayload 7 0 11)
           Toy.crew eq_refl eq_refl).
Defined.

Lemma C10_witness :
  JS.occurs "Bearer " "1..11111111111.111111" = false /\
  bearer_token (Some "1..11111111111.111111") = Some "1..11111111111.111111" /\
  authenticateToken Toy.secret (Some "1..11111111111.111111") 10
  = authenticateToken Toy.secret (Some "Bearer 1..11111111111.111111") 10 /\
  authenticateToken Toy.secret (Some "1..11111111111.111111") 10
  = inr (mkPayload 1 0 11).
Proof.
  split; [reflexivity|].
  destruct (proj1 (@C10_bare_header toy_jwt toy_jwt_laws Toy.secret)
              "1..11111111111.111111" 10 eq_refl) as [B A].
  split; [exact B|]. split; [exact A|]. reflexivity.
Defined.

(** C10 as it is written fails: a header that does not begin with
    ["Bearer "] and holds it further on is not taken whole.  The header
    here is no token, and the middleware accepts it as the token of
    user 1 that is left when the occurrence is removed. *)
Lemma C10_counterexample :
  String.prefix "Bearer " Toy.spliced = false /\
  bearer_token (Some Toy.spliced) = Some (Toy.sign 1 Toy.secret one_hour 0) /\
  bearer_token (Some Toy.spliced) <> Some Toy.spliced /\
  jwt_verify Toy.spliced Toy.secret 10 = None /\
  authenticateToken Toy.secret (Some Toy.spliced) 10 = inr (Toy.token_of 1).
Proof.
  repeat split; try (vm_compute; reflexivity).
  vm_compute. discriminate.
Qed.

(** ** Sequences and flows on concrete requests *)

Lemma X1_witness :
  Forall plain_email Toy.session /\
  unique_users Toy.crew /\
  length (users (serve Toy.secret Toy.hash Toy.compare Toy.echo Toy.session Toy.crew)) = 3 /\
  unique_users (serve Toy.secret Toy.hash Toy.compare Toy.echo Toy.session Toy.crew).
Proof.
  split; [exact plain_email_session|].
  split; [exact unique_users_crew|]. split; [reflexivity|].
  exact (@X1_users_stay_unique toy_jwt toy_mongoose Toy.secret Toy.hash
           Toy.compare Toy.echo Toy.session Toy.crew plain_email_session
           unique_users_crew).
Defined.

Lemma X2_witness :
  find (by_id 1) (users Toy.crew) = Some Toy.luffy /\
  find (by_id 1)
       (users (serve Toy.secret Toy.hash Toy.compare Toy.echo Toy.session Toy.crew))
  = Some (with_role Toy.luffy (Some "You are a navigator.")) /\
  exists u',
    find (by_id 1)
         (users (serve Toy.secret Toy.hash Toy.compare Toy.echo Toy.session Toy.crew))
    = Some u' /\
    _id u' = 1 /\ name u' = "Luffy" /\
    email u' = "luffy@grandline.sea" /\ password u' = Toy.hash "meat" 10.
Proof.
  split; [reflexivity|]. split; [reflexivity|].
  exact (@X2_users_are_kept toy_jwt toy_mongoose Toy.secret Toy.hash Toy.compare
           Toy.echo Toy.session Toy.crew 1 Toy.luffy eq_refl).
Defined.

Lemma X4_witness :
  (forall authorization body,
     PostRegister Toy.zoro <> PostChatbot authorization body) /\
  let w' :=
    snd (app Toy.secret Toy.hash Toy.compare Toy.echo (PostRegister Toy.zoro) 0
             Toy.crew) in
  length (users w') = 3 /\
  conversations w' = conversations Toy.crew /\
  completion_calls (effects w') = completion_calls (effects Toy.crew) /\
  ((forall body, PostRegister Toy.zoro <> PostRegister body) -> w' = Toy.crew).
Proof.
  assert (N : forall authorization body,
             PostRegister Toy.zoro <> PostChatbot authorization body)
    by discriminate.
  split; [exact N|]. split; [reflexivity|].
  exact (@X4_only_chat_calls toy_jwt toy_mongoose Toy.secret Toy.hash Toy.compare
           Toy.echo (PostRegister Toy.zoro) 0 Toy.crew N).
Defined.

Lemma X5_witness :
  2 <> id (Toy.token_of 1) /\
  let w' :=
    snd (chatbot_handler Toy.echo Toy.as_navigator (Toy.token_of 1) Toy.crew) in
  find (by_id 1) (users w') <> find (by_id 1) (users Toy.crew) /\
  history 2 w' = history 2 Toy.crew /\
  find (by_id 2) (users w') = find (by_id 2) (users Toy.crew).
Proof.
  assert (N : 2 <> id (Toy.token_of 1)) by discriminate.
  split; [exact N|]. split; [discriminate|].
  exact (@X5_chat_isolation toy_mongoose Toy.echo Toy.as_navigator
           (Toy.token_of 1) Toy.crew 2 N).
Defined.

Lemma X8_witness :
  let w :=
    serve Toy.secret Toy.hash Toy.compare Toy.echo Toy.session
          (mkWorld [] [] []) in
  let u :=
    mkUser 1 "Zoro" "zoro@grandline.sea" (Toy.hash "swords" 10)
           (Some "You are a navigator.") in
  users w = [u] /\
  In u (users w) /\
  created_by Toy.hash Toy.session u.
Proof.
  intros w u.
  assert (I : In u (users w)) by (left; reflexivity).
  split; [reflexivity|]. split; [exact I|].
  exact (@X8_stored_users_registered toy_jwt toy_mongoose Toy.secret Toy.hash
           Toy.compare Toy.echo Toy.session u I).
Defined.

Lemma X9_witness :
  let body :=
    mkRegisterBody (Toy.str "Zoro") (Toy.str "zoro@grandline.sea")
                   (Some (JS.Number 12345)) in
  let result := post_api_register Toy.secret Toy.hash body 0 Toy.crew in
  "Zoro" <> "" /\ "zoro@grandline.sea" <> "" /\
  ~ In "zoro@grandline.sea" (map email (users Toy.crew)) /\
  JS.truthy_json (JS.Number 12345) = true /\
  fst result = server_error /\
  snd result = Toy.crew.
Proof.
  intros body result.
  assert (Nn : "Zoro" <> "") by discriminate.
  assert (Ne : "zoro@grandline.sea" <> "") by discriminate.
  assert (NI : ~ In "zoro@grandline.sea" (map email (users Toy.crew))).
  { simpl. intros [E|[E|[]]]; discriminate E. }
  assert (Np : forall s, JS.Number 12345 <> JS.Str s) by discriminate.
  destruct (@X9_register_outcome toy_jwt toy_mongoose Toy.secret Toy.hash body 0
              Toy.crew) as (_ & Unchanged & _ & _ & Thrown).
  split; [exact Nn|]. split; [exact Ne|]. split; [exact NI|].
  split; [reflexivity|]. split.
  - exact (Thrown "Zoro" "zoro@grandline.sea" (JS.Number 12345) eq_refl
             Nn Ne NI eq_refl Np).
  - apply Unchanged. discriminate.
Defined.

Lemma X10_witness :
  let body :=
    mkLoginBody (Toy.str "luffy@grandline.sea") (Toy.str "meat") in
  let result := post_api_login Toy.secret Toy.compare body 7 Toy.crew in
  find (by_email "luffy@grandline.sea") (users Toy.crew) = Some Toy.luffy /\
  Toy.compare "meat" (password Toy.luffy) = true /\
  status (fst result) = 200 /\
  snd result = Toy.crew.
Proof.
  intros body result.
  destruct (@X10_login_outcome toy_jwt toy_mongoose Toy.secret Toy.compare body 7
              Toy.crew) as (Unchanged & _ & _ & Strings).
  split; [reflexivity|]. split; [reflexivity|]. split; [|exact Unchanged].
  apply (proj1 (Strings "luffy@grandline.sea" "meat" eq_refl)).
  split; [discriminate|]. split; [discriminate|].
  exists Toy.luffy. split; reflexivity.
Defined.

Lemma X11_witness :
  "Zoro" <> "" /\ "zoro@grandline.sea" <> "" /\ "swords" <> "" /\
  ~ In "zoro@grandline.sea" (map email (users Toy.crew)) /\
  Toy.compare "swords" (Toy.hash "swords" 10) = true /\
  exists i m m',
    fst (post_api_register Toy.secret Toy.hash Toy.zoro 0 Toy.crew)
    = mkResponse 201 (JToken (jwt_sign i Toy.secret one_hour 0) m) /\
    post_api_login Toy.secret Toy.compare
      (mkLoginBody (Toy.str "zoro@grandline.sea") (Toy.str "swords")) 7
      (snd (post_api_register Toy.secret Toy.hash Toy.zoro 0 Toy.crew))
    = (mkResponse 200 (JToken (jwt_sign i Toy.secret one_hour 7) m'),
       snd (post_api_register Toy.secret Toy.hash Toy.zoro 0 Toy.crew)).
Proof.
  assert (Nn : "Zoro" <> "") by discriminate.
  assert (Ne : "zoro@grandline.sea" <> "") by discriminate.
  assert (Np : "swords" <> "") by discriminate.
  assert (NI : ~ In "zoro@grandline.sea" (map email (users Toy.crew))).
  { simpl. intros [E|[E|[]]]; discriminate E. }
  split; [exact Nn|]. split; [exact Ne|]. split; [exact Np|].
  split; [exact NI|]. split; [reflexivity|].
  exact (@X11_register_then_login toy_jwt toy_mongoose Toy.secret Toy.hash
           Toy.compare "Zoro" "zoro@grandline.sea" "swords" 0 7 Toy.crew
           Nn Ne Np NI eq_refl).
Defined.

Lemma X13_witness :
  Forall plain_role Toy.session /\
  roles_nonempty Toy.crew /\
  roles_nonempty
    (serve Toy.secret Toy.hash Toy.compare Toy.echo Toy.session Toy.crew).
Proof.
  split; [exact plain_role_session|].
  split; [exact roles_nonempty_crew|].
  exact (@X13_roles_stay_nonempty toy_jwt toy_mongoose Toy.secret Toy.hash
           Toy.compare Toy.echo Toy.session Toy.crew plain_role_session
           roles_nonempty_crew).
Defined.
